(** * vmware_guest_floppy: reconciliation of a VM's floppy drive

    Shallow embedding of [plugins/modules/vmware_guest_floppy.py].

    The module reads the floppy device of a virtual machine, compares it with
    the task arguments and, when they differ, sends one [ReconfigVM_Task] with
    the accumulated device changes.  The pyVmomi objects are embedded as
    records, the helper's mutable fields ([configspec], [change_detected]) by
    explicit state passing, and the calls that leave the process
    ([ReconfigVM_Task], [gather_vm_facts], [get_vm]) as fields of a record
    describing the vCenter endpoint. *)

From Stdlib Require Import ZArith.
From stdpp Require Import base decidable option list strings gmap.

Open Scope Z_scope.
Open Scope string_scope.

(** ** The pyVmomi object model used by the module *)

Module vim.

(** [vim.VirtualMachinePowerState] *)
Inductive VirtualMachinePowerState := poweredOff | poweredOn | suspended.

#[export] Instance VirtualMachinePowerState_eq_dec :
  EqDecision VirtualMachinePowerState.
Proof. solve_decision. Defined.

(** [vim.vm.device.VirtualDevice.ConnectInfo] *)
Record ConnectInfo := {
  allowGuestControl : bool;
  startConnected : bool;
  connected : bool
}.

(** [ConnectInfo()]: the SDK constructor leaves every boolean [False]. *)
Definition ConnectInfo_new : ConnectInfo :=
  {| allowGuestControl := false; startConnected := false; connected := false |}.

(** The backings a floppy drive can carry.  [fileName] is optional so that
    it compares with [image_file], which is [None] when it was not given; the
    constructor below never builds an image backing without a name. *)
Inductive BackingInfo :=
| RemoteDeviceBackingInfo
| ImageBackingInfo (fileName : option string)
| DeviceBackingInfo (deviceName : string).

(** What an SDK constructor gives: the object, or nothing when it raises
    [TypeError] because a required field was handed [None]. *)
Inductive built (A : Type) :=
| Built (a : A)
| Refused.

Arguments Built {A} a.
Arguments Refused {A}.

(** [vim.vm.device.VirtualFloppy.ImageBackingInfo(fileName=...)]: [fileName]
    is a required field, so the constructor raises [TypeError] on [None]. *)
Definition ImageBackingInfo_new (fileName : option string) : built BackingInfo :=
  match fileName with
  | Some _ => Built (ImageBackingInfo fileName)
  | None => Refused
  end.

(** [vim.vm.device.VirtualFloppy] *)
Record VirtualFloppy := {
  key : Z;
  controllerKey : Z;
  backing : option BackingInfo;
  connectable : ConnectInfo
}.

(** [vim.vm.device.VirtualSIOController] *)
Record VirtualSIOController := {
  sio_key : Z;
  busNumber : Z
}.

(** The entries of [vm.config.hardware.device]; [isinstance] tests become
    pattern matching on the constructor. *)
Inductive VirtualDevice :=
| Floppy (f : VirtualFloppy)
| SIOController (c : VirtualSIOController)
| OtherDevice (k : Z).

(** [vim.vm.device.VirtualDeviceSpec.Operation] *)
Inductive Operation := add | edit | remove.

(** [vim.vm.device.VirtualDeviceSpec] *)
Record VirtualDeviceSpec := {
  operation : Operation;
  device : VirtualDevice
}.

(** [vim.vm.ConfigSpec], of which the module only fills [deviceChange]. *)
Record ConfigSpec := { deviceChange : list VirtualDeviceSpec }.

(** A snapshot of the managed object: [vm.config.template],
    [vm.runtime.powerState] and [vm.config.hardware.device]. *)
Record VirtualMachine := {
  template : bool;
  powerState : VirtualMachinePowerState;
  hardware_device : list VirtualDevice
}.

(** [task.info]: the state string and, for a failed task, [info.error.msg]. *)
Inductive TaskState := queued | running | success | error.

Record TaskInfo := {
  state : TaskState;
  error_msg : string
}.

(** A task handle: [task n] is the [info] read after [n] one-second sleeps. *)
Definition Task := nat -> TaskInfo.

End vim.

Import vim.

(** Python's [x == s] and [x != s] for a parameter that is a string or [None]. *)
Definition py_eq (x : option string) (s : string) : bool :=
  bool_decide (x = Some s).

Definition py_ne (x : option string) (s : string) : bool := negb (py_eq x s).

(** Python's [x in [s1, s2, ...]]. *)
Definition py_in (x : option string) (l : list string) : bool :=
  existsb (py_eq x) l.

(** Truth value of a string or [None]: [None] and the empty string are false. *)
Definition truthy (x : option string) : bool :=
  match x with
  | None => false
  | Some s => negb (bool_decide (s = ""))
  end.

(** ** class PyVmomiDeviceHelper *)

Module PyVmomiDeviceHelper.

(** A new controller on bus 0; its [key] is never assigned and stays the 0
    the SDK constructor gives it.  ([deviceInfo] plays no part here.) *)
Definition create_sio_controller : VirtualDeviceSpec :=
  {| operation := add;
     device := SIOController {| sio_key := 0; busNumber := 0 |} |}.

(** [sio_ctl] is either the spec just built by [create_sio_controller]
    (unwrapped to its device by the [isinstance] test) or the controller
    found on the VM. *)
Definition sio_key_of (sio_ctl : VirtualDeviceSpec + VirtualSIOController) : Z :=
  match sio_ctl with
  | inl spec =>
      match device spec with
      | SIOController c => sio_key c
      | Floppy f => key f
      | OtherDevice k => k
      end
  | inr c => sio_key c
  end.

(** The spec is filled field by field and the backing comes last: for
    ['flp'] without a path the call dies there, in the constructor of the
    image backing. *)
Definition create_floppy (sio_ctl : VirtualDeviceSpec + VirtualSIOController)
    (floppy_type : option string) (flp_path : option string)
    : built VirtualDeviceSpec :=
  let connectable :=
    {| allowGuestControl := true;
       startConnected := py_ne floppy_type "none";
       connected := connected ConnectInfo_new |} in
  let floppy_spec (backing : option BackingInfo) :=
    {| operation := add;
       device := Floppy
         {| key := -1;
            controllerKey := sio_key_of sio_ctl;
            connectable := connectable;
            backing := backing |} |} in
  if py_in floppy_type ["none"; "client"] then
    Built (floppy_spec (Some RemoteDeviceBackingInfo))
  else if py_eq floppy_type "flp" then
    match ImageBackingInfo_new flp_path with
    | Built image => Built (floppy_spec (Some image))
    | Refused => Refused
    end
  else Built (floppy_spec None).

Definition is_remote (b : option BackingInfo) : bool :=
  match b with Some RemoteDeviceBackingInfo => true | _ => false end.

Definition is_image (b : option BackingInfo) : bool :=
  match b with Some (ImageBackingInfo _) => true | _ => false end.

(** [floppy_device.backing.fileName == flp_path], read only behind
    [isinstance(..., ImageBackingInfo)]. *)
Definition fileName_is (b : option BackingInfo) (flp_path : option string) : bool :=
  match b with
  | Some (ImageBackingInfo f) => bool_decide (f = flp_path)
  | _ => false
  end.

Definition powered_on (vm_obj : VirtualMachine) : bool :=
  bool_decide (powerState vm_obj = poweredOn).

(** The truth value of what [is_equal_floppy] returns.  For a type outside
    the three branches Python falls off the end and returns [None], which the
    only caller negates: the embedding returns [false] there. *)
Definition is_equal_floppy (vm_obj : VirtualMachine) (floppy_device : VirtualFloppy)
    (floppy_type : option string) (flp_path : option string) : bool :=
  let c := connectable floppy_device in
  if py_eq floppy_type "none" then
    is_remote (backing floppy_device) &&
    allowGuestControl c &&
    negb (startConnected c) &&
    (negb (powered_on vm_obj) || negb (connected c))
  else if py_eq floppy_type "client" then
    is_remote (backing floppy_device) &&
    allowGuestControl c &&
    startConnected c &&
    (negb (powered_on vm_obj) || connected c)
  else if py_eq floppy_type "flp" then
    is_image (backing floppy_device) &&
    fileName_is (backing floppy_device) flp_path &&
    allowGuestControl c &&
    startConnected c &&
    (negb (powered_on vm_obj) || connected c)
  else false.

End PyVmomiDeviceHelper.

(** ** Module parameters, results and exits *)

(** [module.params] after [AnsibleModule] has applied [argument_spec]: every
    key is present, [type] and [image_file] are strings or [None]. *)
Record Params := {
  param_state : string;
  param_name : option string;
  param_uuid : option string;
  param_type : option string;
  param_image_file : option string;
  param_start_connected : bool
}.

(** The values stored in the result dictionaries. *)
Inductive value :=
| VBool (b : bool)
| VStr (s : string)
| VFacts (vm : VirtualMachine).

(** [gather_vm_facts(content, vm)]: the facts of the VM as the server
    reports it at that moment, kept opaque. *)
Definition gather_vm_facts (vm : VirtualMachine) : value := VFacts vm.

(** The exceptions a run can end in: the [AssertionError] of
    [apply_floppy_op], the [TypeError] of an SDK constructor, and a fault
    raised by the server. *)
Inductive exn :=
| AssertionError
| TypeError
| Fault (name : string).

(** How a method call ends: it returns, it leaves the process through
    [module.fail_json], an exception escapes, or the poll loop of
    [wait_for_task] is still sleeping when the fuel is spent. *)
Inductive outcome (A : Type) :=
| Return (a : A)
| FailJson (kwargs : gmap string value)
| Raise (e : exn)
| Sleeping.

Arguments Return {A} a.
Arguments FailJson {A} kwargs.
Arguments Raise {A} e.
Arguments Sleeping {A}.

(** What [vm.ReconfigVM_Task(spec=...)] does: it hands back a task, with the
    VM as the server holds it once that task has settled, or it raises. *)
Inductive submit :=
| Submitted (task : Task) (settled : VirtualMachine)
| RestrictedVersion (msg : string)
| OtherFault (name : string).

(** The vCenter endpoint the module talks to. *)
Record vCenter := {
  get_vm : Params -> option VirtualMachine;
  ReconfigVM_Task : VirtualMachine -> ConfigSpec -> submit
}.

(** ** class PyVmomiHelper *)

Module PyVmomiHelper.

Import PyVmomiDeviceHelper.

(** The fields of [self] that the floppy methods write. *)
Record self_t := {
  configspec : ConfigSpec;
  change_detected : bool
}.

(** [__init__] leaves [change_detected] false; [configspec] is replaced by
    [apply_floppy_op] before any method reads it. *)
Definition init : self_t :=
  {| configspec := {| deviceChange := [] |}; change_detected := false |}.

(** How a pass over the VM ends: the helper as the pass leaves it, and the
    exception that cut it short, if one did. *)
Record pass := {
  after : self_t;
  raised : option exn
}.

Definition finished (self : self_t) : pass := {| after := self; raised := None |}.

Definition died (e : exn) (self : self_t) : pass := {| after := self; raised := Some e |}.

(** [self.change_detected = True; self.configspec.deviceChange.append(spec)] *)
Definition detect_and_append (spec : VirtualDeviceSpec) (self : self_t) : self_t :=
  {| configspec := {| deviceChange := deviceChange (configspec self) ++ [spec] |};
     change_detected := true |}.

Fixpoint first_sio (devices : list VirtualDevice) : option VirtualSIOController :=
  match devices with
  | [] => None
  | SIOController c :: _ => Some c
  | _ :: rest => first_sio rest
  end.

Fixpoint first_floppy (devices : list VirtualDevice) : option VirtualFloppy :=
  match devices with
  | [] => None
  | Floppy f :: _ => Some f
  | _ :: rest => first_floppy rest
  end.

Definition get_vm_sio_device (vm : option VirtualMachine) : option VirtualSIOController :=
  match vm with
  | None => None
  | Some vm => first_sio (hardware_device vm)
  end.

Definition get_vm_floppy_device (vm : option VirtualMachine) : option VirtualFloppy :=
  match vm with
  | None => None
  | Some vm => first_floppy (hardware_device vm)
  end.

(** [vm_obj and vm_obj.config.template] *)
Definition on_template (vm_obj : option VirtualMachine) : bool :=
  match vm_obj with
  | None => false
  | Some vm => template vm
  end.

(** [vm_obj and vm_obj.runtime.powerState == poweredOn] *)
Definition on_powered_on (vm_obj : option VirtualMachine) : bool :=
  match vm_obj with
  | None => false
  | Some vm => powered_on vm
  end.

Definition remove_floppy (vm_obj : option VirtualMachine) (self : self_t) : self_t :=
  if on_template vm_obj then self
  else
    match get_vm_floppy_device vm_obj with
    | None => self
    | Some floppy_device =>
        detect_and_append {| operation := remove; device := Floppy floppy_device |} self
    end.

(** Assignments to the fields of [floppy_spec.device.connectable]. *)
Definition set_connectable (c : ConnectInfo) (spec : VirtualDeviceSpec) : VirtualDeviceSpec :=
  match device spec with
  | Floppy f =>
      {| operation := operation spec;
         device := Floppy {| key := key f; controllerKey := controllerKey f;
                             backing := backing f; connectable := c |} |}
  | _ => spec
  end.

Definition connectable_of (spec : VirtualDeviceSpec) : ConnectInfo :=
  match device spec with
  | Floppy f => connectable f
  | _ => ConnectInfo_new
  end.

(** The spec of a new floppy: [create_floppy], then on a powered-on VM the
    two assignments to [connected] and [startConnected]. *)
Definition new_floppy_spec (params : Params) (vm_obj : option VirtualMachine)
    (sio_device : VirtualDeviceSpec + VirtualSIOController)
    : built VirtualDeviceSpec :=
  let floppy_type := param_type params in
  let flp_path := param_image_file params in
  match create_floppy sio_device floppy_type flp_path with
  | Built floppy_spec =>
      Built
        (if on_powered_on vm_obj then
           set_connectable
             {| allowGuestControl := allowGuestControl (connectable_of floppy_spec);
                startConnected :=
                  py_ne floppy_type "none" && param_start_connected params;
                connected := py_ne floppy_type "none" |}
             floppy_spec
         else floppy_spec)
  | Refused => Refused
  end.

(** The edit of an existing floppy: a fresh backing for the three known
    types, then a fresh [ConnectInfo], and [connected] only on a powered-on
    VM.  The backing is built first: for ['flp'] without a path the edit
    dies in the constructor of the image backing and writes nothing. *)
Definition edited_floppy (params : Params) (vm_obj : option VirtualMachine)
    (floppy_device : VirtualFloppy) : built VirtualFloppy :=
  let floppy_type := param_type params in
  let flp_path := param_image_file params in
  let edited (backing : option BackingInfo) :=
    {| key := key floppy_device;
       controllerKey := controllerKey floppy_device;
       backing := backing;
       connectable :=
         {| allowGuestControl := true;
            startConnected := py_ne floppy_type "none" && param_start_connected params;
            connected :=
              if on_powered_on vm_obj then py_ne floppy_type "none"
              else connected ConnectInfo_new |} |} in
  if py_in floppy_type ["client"; "none"] then
    Built (edited (Some RemoteDeviceBackingInfo))
  else if py_eq floppy_type "flp" then
    match ImageBackingInfo_new flp_path with
    | Built image => Built (edited (Some image))
    | Refused => Refused
    end
  else Built (edited (backing floppy_device)).

(** [if floppy_spec: ... append(floppy_spec)], reached only when the spec
    could be built; a [TypeError] leaves the helper as it is by then. *)
Definition append_built (floppy_spec : built VirtualDeviceSpec) (self : self_t) : pass :=
  match floppy_spec with
  | Built floppy_spec => finished (detect_and_append floppy_spec self)
  | Refused => died TypeError self
  end.

Definition edit_spec (edited : built VirtualFloppy) : built VirtualDeviceSpec :=
  match edited with
  | Built floppy_device => Built {| operation := edit; device := Floppy floppy_device |}
  | Refused => Refused
  end.

Definition configure_floppy (params : Params) (vm_obj : option VirtualMachine)
    (self : self_t) : pass :=
  if on_template vm_obj then finished self
  else
    let floppy_type := param_type params in
    let flp_path := param_image_file params in
    match get_vm_floppy_device vm_obj, vm_obj with
    | None, _ =>
        (* Creating new floppy *)
        match get_vm_sio_device vm_obj with
        | None =>
            (* Creating new SIO device *)
            let sio_device := create_sio_controller in
            let self := detect_and_append sio_device self in
            append_built (new_floppy_spec params vm_obj (inl sio_device)) self
        | Some sio_device =>
            append_built (new_floppy_spec params vm_obj (inr sio_device)) self
        end
    | Some floppy_device, Some vm =>
        if negb (is_equal_floppy vm floppy_device floppy_type flp_path) then
          (* Updating an existing floppy *)
          append_built (edit_spec (edited_floppy params vm_obj floppy_device)) self
        else finished self
    | Some _, None =>
        finished self (* no VM, no device: [get_vm_floppy_device None = None] *)
    end.

(** The poll loop: [fuel] bounds the number of sleeps; the loop leaves at the
    first read whose state is ['error'] or ['success']. *)
Definition terminal (s : TaskState) : bool :=
  match s with
  | error | success => true
  | _ => false
  end.

Fixpoint wait_for_task (fuel : nat) (task : Task) (now : nat) : option nat :=
  if terminal (state (task now)) then Some now
  else
    match fuel with
    | O => None
    | S fuel => wait_for_task fuel task (S now)
    end.

End PyVmomiHelper.

(** ** apply_floppy_op and main *)

(** One call of [apply_floppy_op]: how it ended, the specs that were handed
    to [ReconfigVM_Task], and the VM as the server holds it afterwards. *)
Record run := {
  result : outcome (gmap string value);
  submitted : list ConfigSpec;
  vm_after : VirtualMachine
}.

Module Apply.

Import PyVmomiDeviceHelper PyVmomiHelper.

Definition msg_type_mandatory : string := "type is mandatory".

Definition msg_type_not_valid : string :=
  "type is not valid. Permitted values: none, client, image_file".

Definition msg_image_file_mandatory : string :=
  "image_file is mandatory in case type is flp".

Definition msg_restricted_version : string :=
  "Failed to reconfigure virtual machine due to product versioning restrictions: ".

(** [module.fail_json(msg=...)] *)
Definition fail_msg {A} (msg : string) : outcome A :=
  FailJson {[ "msg" := VStr msg ]}.

(** The first half of [apply_floppy_op]: the fresh [ConfigSpec], then the
    pass chosen by [state], behind the three checks for ['present']. *)
Definition reconcile (params : Params) (vm : VirtualMachine)
    (self : self_t) : outcome self_t :=
  let self := {| configspec := {| deviceChange := [] |};
                 change_detected := change_detected self |} in
  if bool_decide (param_state params = "absent") then
    Return (remove_floppy (Some vm) self)
  else if bool_decide (param_state params = "present") then
    if negb (truthy (param_type params)) then
      fail_msg msg_type_mandatory
    else if negb (py_in (param_type params) ["none"; "client"; "flp"]) then
      fail_msg msg_type_not_valid
    else if py_eq (param_type params) "image_file"
            && negb (truthy (param_image_file params)) then
      fail_msg msg_image_file_mandatory
    else
      match raised (configure_floppy params (Some vm) self) with
      | None => Return (after (configure_floppy params (Some vm) self))
      | Some e => Raise e
      end
  else Raise AssertionError.

(** The second half: only send the task if a modification was seen. *)
Definition send (srv : vCenter) (fuel : nat) (vm : VirtualMachine)
    (self : self_t) : run :=
  if change_detected self then
    let spec := configspec self in
    match ReconfigVM_Task srv vm spec with
    | RestrictedVersion msg =>
        {| result := fail_msg (msg_restricted_version ++ msg);
           submitted := [spec]; vm_after := vm |}
    | OtherFault name =>
        {| result := Raise (Fault name); submitted := [spec]; vm_after := vm |}
    | Submitted task settled =>
        match wait_for_task fuel task 0 with
        | None => {| result := Sleeping; submitted := [spec]; vm_after := settled |}
        | Some now =>
            let change_applied := true in
            let info := task now in
            {| result :=
                 match state info with
                 | error =>
                     Return {[ "changed" := VBool change_applied;
                               "failed" := VBool true;
                               "msg" := VStr (error_msg info) ]}
                 | _ =>
                     Return {[ "changed" := VBool change_applied;
                               "failed" := VBool false;
                               "instance" := gather_vm_facts settled ]}
                 end;
               submitted := [spec]; vm_after := settled |}
        end
    end
  else
    let change_applied := false in
    {| result := Return {[ "changed" := VBool change_applied;
                           "failed" := VBool false;
                           "instance" := gather_vm_facts vm ]};
       submitted := []; vm_after := vm |}.

Definition apply_floppy_op (srv : vCenter) (fuel : nat) (params : Params)
    (self : self_t) (vm : VirtualMachine) : run :=
  match reconcile params vm self with
  | Return self => send srv fuel vm self
  | FailJson kwargs => {| result := FailJson kwargs; submitted := []; vm_after := vm |}
  | Raise e => {| result := Raise e; submitted := []; vm_after := vm |}
  | Sleeping => {| result := Sleeping; submitted := []; vm_after := vm |}
  end.

End Apply.

(** The task arguments as the playbook gives them; [None] is an omitted key. *)
Record Args := {
  arg_state : option string;
  arg_name : option string;
  arg_uuid : option string;
  arg_type : option string;
  arg_image_file : option string;
  arg_start_connected : option bool
}.

(** How the process ends. *)
Inductive exit :=
| exit_json (kwargs : gmap string value)
| fail_json (kwargs : gmap string value)
| traceback (e : exn)
| invalid_arguments
| hangs.

Module Main.

Import PyVmomiHelper Apply.

(** [AnsibleModule(argument_spec=..., required_one_of=[['name', 'uuid']])]:
    the defaults of [argument_spec] fill the omitted keys ([state] defaults
    to ['present'], [type] to [None], [start_connected] to [False]); a
    [state] outside its [choices] is refused.  [argument_spec] has no [uuid]
    key: a task that gives one is refused as an unsupported parameter, so
    [required_one_of] comes down to [name], and [params.get('uuid')] is
    [None]. *)
Definition module_params (args : Args) : option Params :=
  let state := default "present" (arg_state args) in
  if negb (bool_decide (state = "present") || bool_decide (state = "absent")) then None
  else if bool_decide (is_Some (arg_uuid args)) then None
  else if negb (bool_decide (is_Some (arg_name args))
                || bool_decide (is_Some (arg_uuid args))) then None
  else Some {| param_state := state;
               param_name := arg_name args;
               param_uuid := None;
               param_type := from_option Some None (arg_type args);
               param_image_file := arg_image_file args;
               param_start_connected := default false (arg_start_connected args) |}.

(** ["%s" % (uuid or name)] *)
Definition uuid_or_name (params : Params) : string :=
  match (if truthy (param_uuid params) then param_uuid params
         else param_name params) with
  | Some s => s
  | None => "None"
  end.

Definition msg_non_existing : string :=
  "Unable to manage floppy disk for non-existing VM ".

(** [result['failed']], after ['failed'] was added when it was missing. *)
Definition failed_flag (result : gmap string value) : bool :=
  match result !! "failed" with
  | Some (VBool b) => b
  | Some (VStr s) => negb (bool_decide (s = ""))
  | Some (VFacts _) => true
  | None => false
  end.

(** [main], with the calls it made to [ReconfigVM_Task]. *)
Definition main (srv : vCenter) (fuel : nat) (args : Args) : exit * list ConfigSpec :=
  match module_params args with
  | None => (invalid_arguments, [])
  | Some params =>
      match get_vm srv params with
      | None =>
          (fail_json {[ "msg" := VStr (msg_non_existing ++ uuid_or_name params) ]}, [])
      | Some vm =>
          let r := apply_floppy_op srv fuel params init vm in
          (match result r with
           | Return result =>
               let result :=
                 match result !! "failed" with
                 | None => <[ "failed" := VBool false ]> result
                 | Some _ => result
                 end in
               if failed_flag result then fail_json result else exit_json result
           | FailJson kwargs => fail_json kwargs
           | Raise e => traceback e
           | Sleeping => hangs
           end, submitted r)
      end
  end.

(** What the caller is shown: [exit_json] prints its arguments,
    [fail_json] prints them with ['failed'] set to [True]. *)
Definition reported (e : exit) : gmap string value :=
  match e with
  | exit_json kwargs => kwargs
  | fail_json kwargs => <[ "failed" := VBool true ]> kwargs
  | _ => ∅
  end.

End Main.

(** ** A server that carries out what it is sent

    The two-run property needs the state the first run leaves behind.  This
    server performs the device changes of a [ConfigSpec] in order, matching
    devices by [key], and completes the task after [delay] seconds. *)

Module Server.

Definition device_key (d : VirtualDevice) : Z :=
  match d with
  | Floppy f => key f
  | SIOController c => sio_key c
  | OtherDevice k => k
  end.

Definition same_key (d d' : VirtualDevice) : bool :=
  bool_decide (device_key d = device_key d').

Definition device_change (devices : list VirtualDevice) (spec : VirtualDeviceSpec)
    : list VirtualDevice :=
  match operation spec with
  | add => devices ++ [device spec]
  | edit => map (fun d => if same_key d (device spec) then device spec else d) devices
  | remove => List.filter (fun d => negb (same_key d (device spec))) devices
  end.

Definition reconfigure (vm : VirtualMachine) (spec : ConfigSpec) : VirtualMachine :=
  {| template := template vm;
     powerState := powerState vm;
     hardware_device := fold_left device_change (deviceChange spec) (hardware_device vm) |}.

Definition task_done_after (delay : nat) : Task :=
  fun now =>
    {| state := if (now <? delay)%nat then running else success; error_msg := "" |}.

Definition carries_out (delay : nat) (vm0 : VirtualMachine) : vCenter :=
  {| get_vm := fun _ => Some vm0;
     ReconfigVM_Task := fun vm spec =>
       Submitted (task_done_after delay) (reconfigure vm spec) |}.

(** A server that refuses every reconfiguration with [RestrictedVersion]. *)
Definition restricted (msg : string) (vm0 : VirtualMachine) : vCenter :=
  {| get_vm := fun _ => Some vm0;
     ReconfigVM_Task := fun _ _ => RestrictedVersion msg |}.

(** A server on which the lookup of the VM finds nothing. *)
Definition without_vm : vCenter :=
  {| get_vm := fun _ => None;
     ReconfigVM_Task := fun vm spec => Submitted (task_done_after 0) (reconfigure vm spec) |}.

(** A server whose task ends in the ['error'] state. *)
Definition failing (msg : string) (vm0 : VirtualMachine) : vCenter :=
  {| get_vm := fun _ => Some vm0;
     ReconfigVM_Task := fun vm _ =>
       Submitted (fun _ => {| state := error; error_msg := msg |}) vm |}.

End Server.

(** ** Vocabulary of the properties *)

Module Props.

Import PyVmomiDeviceHelper PyVmomiHelper Apply Main.

(** The change operations one [configure_floppy] pass appends, read off a
    helper whose change-set is empty. *)
Definition emitted (params : Params) (vm_obj : option VirtualMachine)
    : list VirtualDeviceSpec :=
  deviceChange (configspec (after (configure_floppy params vm_obj init))).

(** The change operations one [remove_floppy] pass appends. *)
Definition removed (vm_obj : option VirtualMachine) : list VirtualDeviceSpec :=
  deviceChange (configspec (remove_floppy vm_obj init)).

(** The three values of [type] the module documents. *)
Definition valid_type (params : Params) : Prop :=
  param_type params = Some "none" \/
  param_type params = Some "client" \/
  param_type params = Some "flp".

(** The current state already satisfies the descriptor. *)
Definition equivalent (params : Params) (vm : VirtualMachine) : Prop :=
  exists floppy_device,
    get_vm_floppy_device (Some vm) = Some floppy_device /\
    is_equal_floppy vm floppy_device (param_type params) (param_image_file params) = true.

(** The result dictionary of a run that returned or failed through
    [fail_json]; the flags are read off it. *)
Definition flag (name : string) (r : run) : option value :=
  match result r with
  | Return d => d !! name
  | FailJson kwargs => kwargs !! name
  | _ => None
  end.

(** The dictionary returned when nothing was sent, and the one returned
    after a task that succeeded. *)
Definition unchanged (vm : VirtualMachine) : gmap string value :=
  {[ "changed" := VBool false; "failed" := VBool false;
     "instance" := gather_vm_facts vm ]}.

Definition changed_to (settled : VirtualMachine) : gmap string value :=
  {[ "changed" := VBool true; "failed" := VBool false;
     "instance" := gather_vm_facts settled ]}.

(** The descriptor of the specification: one of three kinds, an optional
    image path, the start-connected flag; and the two target states.  They
    are turned into the module parameters that express them. *)
Inductive Kind := Disconnected | ClientRedirected | ImageBacked.

Definition kind_type (k : Kind) : string :=
  match k with
  | Disconnected => "none"
  | ClientRedirected => "client"
  | ImageBacked => "flp"
  end.

Record Descriptor := {
  kind : Kind;
  imagePath : option string;
  startConnected_wanted : bool
}.

Inductive Target := present | absent.

Definition target_state (t : Target) : string :=
  match t with
  | present => "present"
  | absent => "absent"
  end.

Definition descriptor_params (name uuid : option string) (t : Target)
    (d : Descriptor) : Params :=
  {| param_state := target_state t;
     param_name := name;
     param_uuid := uuid;
     param_type := Some (kind_type (kind d));
     param_image_file := imagePath d;
     param_start_connected := startConnected_wanted d |}.

(** The descriptors whose written state is the state the equivalence check
    asks for: [start_connected] is written into the spec of an edit and of
    a creation on a powered-on VM, while the check wants [startConnected]
    for every type but ['none']. *)
Definition settles (params : Params) (vm : VirtualMachine) : Prop :=
  param_type params = Some "none" \/
  param_start_connected params = true \/
  (get_vm_floppy_device (Some vm) = None /\ powerState vm <> poweredOn).

(** The drive asked for can be built: [type: flp] comes with an
    [image_file], which the constructor of the image backing requires. *)
Definition buildable (params : Params) : Prop :=
  param_type params = Some "flp" -> param_image_file params <> None.

Definition with_start_connected (b : bool) (params : Params) : Params :=
  {| param_state := param_state params;
     param_name := param_name params;
     param_uuid := param_uuid params;
     param_type := param_type params;
     param_image_file := param_image_file params;
     param_start_connected := b |}.

End Props.

(** ** Sample machines and task arguments *)

Module Samples.

(** A powered-off VM with neither a floppy drive nor an SIO controller. *)
Definition vm_bare : VirtualMachine :=
  {| template := false; powerState := poweredOff;
     hardware_device := [OtherDevice 100] |}.

(** A template with the same hardware. *)
Definition vm_template : VirtualMachine :=
  {| template := true; powerState := poweredOff;
     hardware_device := [OtherDevice 100] |}.

(** A floppy drive left disconnected on a client backing. *)
Definition floppy_disconnected : VirtualFloppy :=
  {| key := 8000; controllerKey := 400;
     backing := Some RemoteDeviceBackingInfo;
     connectable := {| allowGuestControl := true; startConnected := false;
                       connected := false |} |}.

Definition vm_with_floppy (power : VirtualMachinePowerState) : VirtualMachine :=
  {| template := false; powerState := power;
     hardware_device :=
       [OtherDevice 100;
        SIOController {| sio_key := 400; busNumber := 0 |};
        Floppy floppy_disconnected] |}.

Definition params_of (state : string) (type image_file : option string)
    (start_connected : bool) : Params :=
  {| param_state := state; param_name := Some "vm01"; param_uuid := None;
     param_type := type; param_image_file := image_file;
     param_start_connected := start_connected |}.

Definition present_none : Params := params_of "present" (Some "none") None false.
Definition present_client : Params := params_of "present" (Some "client") None false.
Definition present_client_connected : Params :=
  params_of "present" (Some "client") None true.
Definition present_flp : Params :=
  params_of "present" (Some "flp") (Some "[datastore1] base.flp") true.
Definition present_flp_no_image : Params := params_of "present" (Some "flp") None false.
Definition present_flp_empty_image : Params :=
  params_of "present" (Some "flp") (Some "") false.
Definition absent_default : Params := params_of "absent" None None false.

(** [state: present] with [type] left out. *)
Definition args_default : Args :=
  {| arg_state := Some "present"; arg_name := Some "vm01"; arg_uuid := None;
     arg_type := None; arg_image_file := None; arg_start_connected := None |}.

Definition args_none : Args :=
  {| arg_state := None; arg_name := Some "vm01"; arg_uuid := None;
     arg_type := Some "none"; arg_image_file := None; arg_start_connected := None |}.

End Samples.


(** ** class PyVmomiCache

    The cache of looked-up inventory objects.  A managed object is given with
    the chain of its parents; the two functions of [module_utils.vmware] that
    the class wraps ([find_obj], [get_all_objs]) are taken as they come. *)

Module PyVmomiCache.

(** The classes of managed entity the cache meets. *)
Inductive MoClass :=
| Datacenter | Folder | Network | ClusterComputeResource | HostSystem | ResourcePool.

#[export] Instance MoClass_eq_dec : EqDecision MoClass.
Proof. solve_decision. Defined.

#[export] Instance MoClass_countable : Countable MoClass.
Proof.
  refine (inj_countable'
    (fun c => match c with
              | Datacenter => 0%nat | Folder => 1%nat | Network => 2%nat
              | ClusterComputeResource => 3%nat | HostSystem => 4%nat
              | ResourcePool => 5%nat
              end)
    (fun n => match n with
              | 0%nat => Datacenter | 1%nat => Folder | 2%nat => Network
              | 3%nat => ClusterComputeResource | 4%nat => HostSystem
              | _ => ResourcePool
              end) _).
  by intros [].
Defined.

(** A managed entity: its class, its [moId], [obj.name] and [obj.parent].
    [Top] is an object whose [parent] is [None], the root of the inventory. *)
Inductive ManagedObject :=
| Top (cls : MoClass) (moId : string) (name : string)
| Under (parent : ManagedObject) (cls : MoClass) (moId : string) (name : string).

Definition mo_class (obj : ManagedObject) : MoClass :=
  match obj with Top c _ _ | Under _ c _ _ => c end.

Definition mo_id (obj : ManagedObject) : string :=
  match obj with Top _ i _ | Under _ _ i _ => i end.

Definition mo_name (obj : ManagedObject) : string :=
  match obj with Top _ _ n | Under _ _ _ n => n end.

Definition mo_parent (obj : ManagedObject) : option ManagedObject :=
  match obj with Top _ _ _ => None | Under p _ _ _ => Some p end.

(** [isinstance(obj, vim.Datacenter)] *)
Definition is_Datacenter (obj : ManagedObject) : bool :=
  bool_decide (mo_class obj = Datacenter).

(** Managed objects are equal, and hash alike, when class and [moId] agree:
    this pair is the key under which a dictionary holds one. *)
Definition mo_key (obj : ManagedObject) : MoClass * string :=
  (mo_class obj, mo_id obj).

(** What [get_all_objs] of [module_utils.vmware] hands back: a dictionary
    from objects to names, in insertion order, or a list. *)
Inductive objs :=
| ObjDict (items : list (ManagedObject * string))
| ObjList (l : list ManagedObject).

(** The two wrapped functions, for the connection held in [self.content]. *)
Record module_utils := {
  ext_find_obj : list MoClass -> option string -> option ManagedObject;
  ext_get_all_objs : list MoClass -> objs
}.

(** The fields of the cache. *)
Record self_t := {
  dc_name : option string;
  networks : gmap (option string) (option ManagedObject);
  clusters : gmap (option string) (option ManagedObject);
  esx_hosts : gmap (option string) (option ManagedObject);
  parent_datacenters : gmap (option (MoClass * string)) (option ManagedObject)
}.

Definition init (dc_name : option string) : self_t :=
  {| dc_name := dc_name; networks := ∅; clusters := ∅; esx_hosts := ∅;
     parent_datacenters := ∅ |}.

(** A call returns or dies of [AttributeError] ([.name] read off [None]). *)
Inductive attempt (A : Type) :=
| Ok (a : A)
| AttributeError.

Arguments Ok {A} a.
Arguments AttributeError {A}.

(** The [while True] loop of [get_parent_datacenter]: step to the parent
    until it is a datacenter, or until the parent is [None], which has no
    [parent] attribute.  The result is [datacenter]; the variable [obj]
    ends on the same value. *)
Fixpoint climb (obj : ManagedObject) : option ManagedObject :=
  match obj with
  | Top _ _ _ => None
  | Under p _ _ _ => if is_Datacenter p then Some p else climb p
  end.

Definition get_parent_datacenter (obj : ManagedObject) (self : self_t)
    : option ManagedObject * self_t :=
  if is_Datacenter obj then (Some obj, self)
  else
    match parent_datacenters self !! Some (mo_key obj) with
    | Some cached => (cached, self)
    | None =>
        let datacenter := climb obj in
        (* [obj] is by now the object the loop stopped on *)
        let obj := datacenter in
        (datacenter,
         {| dc_name := dc_name self; networks := networks self;
            clusters := clusters self; esx_hosts := esx_hosts self;
            parent_datacenters :=
              <[ mo_key <$> obj := datacenter ]> (parent_datacenters self) |})
    end.

(** [tmpobjs.pop(k, None)] *)
Definition pop (k : ManagedObject) (d : list (ManagedObject * string))
    : list (ManagedObject * string) :=
  List.filter (fun kv => negb (bool_decide (mo_key (fst kv) = mo_key k))) d.

(** The loop over [objects.items()] that drops from the copy every object
    outside the datacenter. *)
Fixpoint confine_dict (items tmpobjs : list (ManagedObject * string)) (self : self_t)
    : attempt (list (ManagedObject * string)) * self_t :=
  match items with
  | [] => (Ok tmpobjs, self)
  | (k, v) :: rest =>
      let '(parent_dc, self) := get_parent_datacenter k self in
      match parent_dc with
      | None => (AttributeError, self)
      | Some dc =>
          confine_dict rest
            (if py_ne (dc_name self) (mo_name dc) then pop k tmpobjs else tmpobjs)
            self
      end
  end.

(** The list comprehension that keeps the objects inside the datacenter. *)
Fixpoint confine_list (l : list ManagedObject) (self : self_t)
    : attempt (list ManagedObject) * self_t :=
  match l with
  | [] => (Ok [], self)
  | x :: rest =>
      let '(parent_dc, self) := get_parent_datacenter x self in
      match parent_dc with
      | None => (AttributeError, self)
      | Some dc =>
          let '(kept, self') := confine_list rest self in
          (match kept with
           | Ok kept => Ok (if py_eq (dc_name self) (mo_name dc) then x :: kept else kept)
           | AttributeError => AttributeError
           end, self')
      end
  end.

Definition get_all_objs (ext : module_utils) (types : list MoClass)
    (confine_to_datacenter : bool) (self : self_t) : attempt objs * self_t :=
  let objects := ext_get_all_objs ext types in
  if confine_to_datacenter then
    match objects with
    | ObjDict items =>
        let '(tmpobjs, self) := confine_dict items items self in
        (match tmpobjs with
         | Ok tmpobjs => Ok (ObjDict tmpobjs)
         | AttributeError => AttributeError
         end, self)
    | ObjList l =>
        let '(kept, self) := confine_list l self in
        (match kept with
         | Ok kept => Ok (ObjList kept)
         | AttributeError => AttributeError
         end, self)
    end
  else (Ok objects, self).

(** [for obj in objects]: a dictionary is walked by its keys. *)
Definition iterate (objects : objs) : list ManagedObject :=
  match objects with
  | ObjDict items => map fst items
  | ObjList l => l
  end.

(** [name is None or obj.name == name] *)
Definition name_fits (name : option string) (obj : ManagedObject) : bool :=
  match name with
  | None => true
  | Some n => bool_decide (mo_name obj = n)
  end.

Definition find_obj (ext : module_utils) (types : list MoClass) (name : option string)
    (confine_to_datacenter : bool) (self : self_t)
    : attempt (option ManagedObject) * self_t :=
  match ext_find_obj ext types name with
  | Some result =>
      if confine_to_datacenter then
        let '(parent_dc, self) := get_parent_datacenter result self in
        match parent_dc with
        | None => (AttributeError, self)
        | Some dc =>
            if py_ne (dc_name self) (mo_name dc) then
              let '(objects, self) := get_all_objs ext types true self in
              match objects with
              | Ok objects => (Ok (List.find (name_fits name) (iterate objects)), self)
              | AttributeError => (AttributeError, self)
              end
            else (Ok (Some result), self)
        end
      else (Ok (Some result), self)
  | None => (Ok None, self)
  end.

Definition set_networks (m : gmap (option string) (option ManagedObject))
    (self : self_t) : self_t :=
  {| dc_name := dc_name self; networks := m; clusters := clusters self;
     esx_hosts := esx_hosts self; parent_datacenters := parent_datacenters self |}.

Definition set_clusters (m : gmap (option string) (option ManagedObject))
    (self : self_t) : self_t :=
  {| dc_name := dc_name self; networks := networks self; clusters := m;
     esx_hosts := esx_hosts self; parent_datacenters := parent_datacenters self |}.

Definition set_esx_hosts (m : gmap (option string) (option ManagedObject))
    (self : self_t) : self_t :=
  {| dc_name := dc_name self; networks := networks self; clusters := clusters self;
     esx_hosts := m; parent_datacenters := parent_datacenters self |}.

Definition get_network (ext : module_utils) (network : option string) (self : self_t)
    : attempt (option ManagedObject) * self_t :=
  match networks self !! network with
  | Some cached => (Ok cached, self)
  | None =>
      let '(found, self) := find_obj ext [Network] network true self in
      match found with
      | Ok found => (Ok found, set_networks (<[ network := found ]> (networks self)) self)
      | AttributeError => (AttributeError, self)
      end
  end.

Definition get_cluster (ext : module_utils) (cluster : option string) (self : self_t)
    : attempt (option ManagedObject) * self_t :=
  match clusters self !! cluster with
  | Some cached => (Ok cached, self)
  | None =>
      let '(found, self) := find_obj ext [ClusterComputeResource] cluster true self in
      match found with
      | Ok found => (Ok found, set_clusters (<[ cluster := found ]> (clusters self)) self)
      | AttributeError => (AttributeError, self)
      end
  end.

Definition get_esx_host (ext : module_utils) (host : option string) (self : self_t)
    : attempt (option ManagedObject) * self_t :=
  match esx_hosts self !! host with
  | Some cached => (Ok cached, self)
  | None =>
      let '(found, self) := find_obj ext [HostSystem] host true self in
      match found with
      | Ok found => (Ok found, set_esx_hosts (<[ host := found ]> (esx_hosts self)) self)
      | AttributeError => (AttributeError, self)
      end
  end.

(** *** Vocabulary *)

(** The parents of an object, nearest first. *)
Fixpoint ancestors (obj : ManagedObject) : list ManagedObject :=
  match obj with
  | Top _ _ _ => []
  | Under p _ _ _ => p :: ancestors p
  end.

(** The datacenter an object belongs to: itself, or the nearest ancestor
    that is one. *)
Definition enclosing (obj : ManagedObject) : option ManagedObject :=
  if is_Datacenter obj then Some obj else List.find is_Datacenter (ancestors obj).

(** The object lies in the datacenter of that name. *)
Definition inside (dc_name : option string) (obj : ManagedObject) : bool :=
  match enclosing obj with
  | Some dc => py_eq dc_name (mo_name dc)
  | None => false
  end.

(** The object has no datacenter above it. *)
Definition no_datacenter (obj : ManagedObject) : bool :=
  match enclosing obj with
  | Some _ => false
  | None => true
  end.

(** The entry survives the pops made for the items outside the datacenter:
    none of them has its key. *)
Definition survives (dc_name : option string) (items : list (ManagedObject * string))
    (kv : ManagedObject * string) : bool :=
  negb (existsb (fun it => negb (inside dc_name (fst it))
                           && bool_decide (mo_key (fst kv) = mo_key (fst it))) items).

(** Two states of the cache that differ in [parent_datacenters] at most. *)
Definition same_tables (self self' : self_t) : Prop :=
  dc_name self' = dc_name self /\
  networks self' = networks self /\
  clusters self' = clusters self /\
  esx_hosts self' = esx_hosts self.

(** Every key of [parent_datacenters] is [None] or a datacenter. *)
Definition datacenter_keys (self : self_t) : Prop :=
  forall cls id, is_Some (parent_datacenters self !! Some (cls, id)) -> cls = Datacenter.

(** Samples: a datacenter under the root folder, with a network folder and
    a network in it, and a network of another datacenter. *)
Definition root : ManagedObject := Top Folder "group-d1" "Datacenters".
Definition dc1 : ManagedObject := Under root Datacenter "datacenter-2" "ha-datacenter".
Definition dc2 : ManagedObject := Under root Datacenter "datacenter-9" "other".
Definition netfolder : ManagedObject := Under dc1 Folder "group-n6" "network".
Definition net1 : ManagedObject := Under netfolder Network "network-11" "VM Network".
Definition net2 : ManagedObject :=
  Under (Under dc2 Folder "group-n7" "network") Network "network-12" "VM Network".
Definition orphan : ManagedObject := Under root Network "network-1" "lost".

Definition inventory : module_utils :=
  {| ext_find_obj := fun _ name =>
       List.find (name_fits name) [net2; net1];
     ext_get_all_objs := fun _ => ObjList [net2; net1] |}.

Definition inventory_dict : module_utils :=
  {| ext_find_obj := fun _ name =>
       List.find (name_fits name) [net2; net1];
     ext_get_all_objs := fun _ =>
       ObjDict [(net2, "VM Network"); (net1, "VM Network")] |}.

End PyVmomiCache.

Import PyVmomiDeviceHelper PyVmomiHelper Apply Main Props Samples.

(** ** Python comparisons *)

Lemma py_eq_true x s : py_eq x s = true <-> x = Some s.
Proof. unfold py_eq. apply bool_decide_eq_true. Qed.

Lemma py_eq_false x s : py_eq x s = false <-> x <> Some s.
Proof. unfold py_eq. apply bool_decide_eq_false. Qed.

Lemma py_eq_refl s : py_eq (Some s) s = true.
Proof. by apply py_eq_true. Qed.

Lemma py_eq_other s s' : s <> s' -> py_eq (Some s) s' = false.
Proof. intros Hne. apply py_eq_false. congruence. Qed.

Lemma powered_on_true vm : powered_on vm = true <-> powerState vm = poweredOn.
Proof. unfold powered_on. apply bool_decide_eq_true. Qed.

Lemma powered_on_false vm : powered_on vm = false <-> powerState vm <> poweredOn.
Proof. unfold powered_on. apply bool_decide_eq_false. Qed.

Lemma is_remote_true b : is_remote b = true <-> b = Some RemoteDeviceBackingInfo.
Proof.
  destruct b as [[| f | d] |]; simpl; split; intros H; congruence.
Qed.

Lemma image_fileName_true b flp_path :
  is_image b = true /\ fileName_is b flp_path = true <->
  b = Some (ImageBackingInfo flp_path).
Proof.
  destruct b as [[| f | d] |]; simpl; split; try (intros [H1 H2]; congruence);
    try congruence.
  - intros [_ H]. apply bool_decide_eq_true in H. congruence.
  - intros H. split; [done |]. apply bool_decide_eq_true. congruence.
Qed.

(** The last conjunct of each rule, for [none] and for the other two types. *)
Lemma live_disconnected vm c :
  negb (powered_on vm) || negb (connected c) = true <->
  powerState vm <> poweredOn \/ connected c = false.
Proof.
  rewrite orb_true_iff, !negb_true_iff, powered_on_false. tauto.
Qed.

Lemma live_connected vm c :
  negb (powered_on vm) || connected c = true <->
  powerState vm <> poweredOn \/ connected c = true.
Proof.
  rewrite orb_true_iff, negb_true_iff, powered_on_false. tauto.
Qed.

(** ** The equivalence check *)

(** C2. [is_equal_floppy] is true exactly under the rule of the desired type:
    for ['none'] the backing is the remote one, guest control is allowed, the
    device does not start connected and, on a powered-on VM, is not connected;
    for ['client'] the same with start-connected set and, on a powered-on VM,
    connected; for ['flp'] the backing is the image whose file name is the
    desired path, with guest control, start-connected and, on a powered-on VM,
    connected.  Any other type is never equivalent.  The check is a function
    of its four arguments and touches no state. *)
Theorem is_equal_floppy_rules (vm_obj : VirtualMachine) (floppy_device : VirtualFloppy)
    (flp_path : option string) :
  let c := connectable floppy_device in
  (is_equal_floppy vm_obj floppy_device (Some "none") flp_path = true <->
     backing floppy_device = Some RemoteDeviceBackingInfo /\
     allowGuestControl c = true /\
     startConnected c = false /\
     (powerState vm_obj <> poweredOn \/ connected c = false)) /\
  (is_equal_floppy vm_obj floppy_device (Some "client") flp_path = true <->
     backing floppy_device = Some RemoteDeviceBackingInfo /\
     allowGuestControl c = true /\
     startConnected c = true /\
     (powerState vm_obj <> poweredOn \/ connected c = true)) /\
  (is_equal_floppy vm_obj floppy_device (Some "flp") flp_path = true <->
     backing floppy_device = Some (ImageBackingInfo flp_path) /\
     allowGuestControl c = true /\
     startConnected c = true /\
     (powerState vm_obj <> poweredOn \/ connected c = true)) /\
  (forall floppy_type,
     floppy_type <> Some "none" -> floppy_type <> Some "client" ->
     floppy_type <> Some "flp" ->
     is_equal_floppy vm_obj floppy_device floppy_type flp_path = false).
Proof.
  intros c. unfold is_equal_floppy. fold c.
  split; [| split; [| split]].
  - rewrite py_eq_refl, !andb_true_iff, is_remote_true, negb_true_iff,
      live_disconnected. tauto.
  - rewrite (py_eq_other "client" "none"), py_eq_refl by discriminate.
    rewrite !andb_true_iff, is_remote_true, live_connected. tauto.
  - rewrite (py_eq_other "flp" "none"), (py_eq_other "flp" "client"), py_eq_refl
      by discriminate.
    rewrite !andb_true_iff, image_fileName_true, live_connected. tauto.
  - intros floppy_type Hn Hc Hf.
    apply py_eq_false in Hn, Hc, Hf. by rewrite Hn, Hc, Hf.
Qed.

(** ** The present pass *)

(** What [create_floppy] builds, when it builds. *)
Lemma create_floppy_shape sio_ctl floppy_type flp_path floppy_spec :
  create_floppy sio_ctl floppy_type flp_path = Built floppy_spec ->
  exists backing,
    floppy_spec =
      {| operation := add;
         device := Floppy
           {| key := -1;
              controllerKey := sio_key_of sio_ctl;
              backing := backing;
              connectable :=
                {| allowGuestControl := true;
                   startConnected := py_ne floppy_type "none";
                   connected := false |} |} |}.
Proof.
  unfold create_floppy.
  destruct (py_in floppy_type ["none"; "client"]); [intros [= <-]; eauto |].
  destruct (py_eq floppy_type "flp"); [| intros [= <-]; eauto].
  destruct flp_path; simpl; [intros [= <-]; eauto | discriminate].
Qed.

(** It only refuses ['flp'] without a path. *)
Lemma create_floppy_built sio_ctl floppy_type flp_path :
  (floppy_type = Some "flp" -> flp_path <> None) ->
  exists floppy_spec, create_floppy sio_ctl floppy_type flp_path = Built floppy_spec.
Proof.
  intros Hpath. unfold create_floppy.
  destruct (py_in floppy_type ["none"; "client"]); [eauto |].
  destruct (py_eq floppy_type "flp") eqn:Hflp; [| eauto].
  apply py_eq_true in Hflp. destruct flp_path; simpl; [eauto |].
  by destruct (Hpath Hflp).
Qed.

Lemma create_floppy_refused sio_ctl :
  create_floppy sio_ctl (Some "flp") None = Refused.
Proof. reflexivity. Qed.

Lemma new_floppy_spec_shape params vm_obj sio_device floppy_spec :
  new_floppy_spec params vm_obj sio_device = Built floppy_spec ->
  exists floppy,
    floppy_spec = {| operation := add; device := Floppy floppy |} /\
    key floppy = -1 /\
    controllerKey floppy = sio_key_of sio_device /\
    allowGuestControl (connectable floppy) = true /\
    startConnected (connectable floppy) =
      (if on_powered_on vm_obj
       then py_ne (param_type params) "none" && param_start_connected params
       else py_ne (param_type params) "none").
Proof.
  unfold new_floppy_spec.
  destruct (create_floppy sio_device (param_type params) (param_image_file params))
    as [spec |] eqn:Hcreate; [| discriminate].
  destruct (create_floppy_shape _ _ _ _ Hcreate) as [backing ->].
  intros [= <-]. destruct (on_powered_on vm_obj); simpl; eauto 10.
Qed.

Lemma new_floppy_spec_built params vm_obj sio_device :
  buildable params ->
  exists floppy_spec, new_floppy_spec params vm_obj sio_device = Built floppy_spec.
Proof.
  intros Hb. unfold new_floppy_spec.
  destruct (create_floppy_built sio_device (param_type params) (param_image_file params) Hb)
    as [spec ->].
  eauto.
Qed.

(** A pass only appends: what it adds, and whether it dies, does not depend
    on what the change-set already holds. *)
Lemma configure_floppy_appends params vm_obj self :
  deviceChange (configspec (after (configure_floppy params vm_obj self))) =
  (deviceChange (configspec self) ++ emitted params vm_obj)%list.
Proof.
  unfold emitted, configure_floppy.
  destruct (on_template vm_obj); [by rewrite app_nil_r |].
  destruct (get_vm_floppy_device vm_obj) as [floppy_device |].
  - destruct vm_obj as [vm |]; [| by rewrite app_nil_r].
    destruct (negb _); simpl; [| by rewrite app_nil_r].
    destruct (edited_floppy params (Some vm) floppy_device); simpl;
      [done | by rewrite app_nil_r].
  - destruct (get_vm_sio_device vm_obj) as [sio_device |].
    + destruct (new_floppy_spec params vm_obj (inr sio_device)); simpl;
        [done | by rewrite app_nil_r].
    + destruct (new_floppy_spec params vm_obj (inl create_sio_controller)); simpl;
        [by rewrite <- app_assoc | done].
Qed.

Lemma configure_floppy_raised params vm_obj self :
  raised (configure_floppy params vm_obj self) =
  raised (configure_floppy params vm_obj init).
Proof.
  unfold configure_floppy.
  destruct (on_template vm_obj); [done |].
  destruct (get_vm_floppy_device vm_obj) as [floppy_device |].
  - destruct vm_obj as [vm |]; [| done].
    destruct (negb _); [| done].
    by destruct (edited_floppy params (Some vm) floppy_device).
  - destruct (get_vm_sio_device vm_obj) as [sio_device |].
    + by destruct (new_floppy_spec params vm_obj (inr sio_device)).
    + by destruct (new_floppy_spec params vm_obj (inl create_sio_controller)).
Qed.

(** The flag and the change-set move together. *)
Lemma configure_floppy_detects params vm_obj :
  change_detected (after (configure_floppy params vm_obj init)) = true <->
  emitted params vm_obj <> [].
Proof.
  unfold emitted, configure_floppy.
  destruct (on_template vm_obj); [simpl; split; congruence |].
  destruct (get_vm_floppy_device vm_obj) as [floppy_device |].
  - destruct vm_obj as [vm |]; [| simpl; split; congruence].
    destruct (negb _); [| simpl; split; congruence].
    destruct (edited_floppy params (Some vm) floppy_device); simpl; split; congruence.
  - destruct (get_vm_sio_device vm_obj) as [sio_device |].
    + destruct (new_floppy_spec params vm_obj (inr sio_device)); simpl; split;
        congruence.
    + destruct (new_floppy_spec params vm_obj (inl create_sio_controller)); simpl;
        split; congruence.
Qed.

(** An equivalent drive makes the pass return the helper it was given. *)
Lemma configure_floppy_equivalent params vm floppy_device self :
  get_vm_floppy_device (Some vm) = Some floppy_device ->
  is_equal_floppy vm floppy_device (param_type params) (param_image_file params) = true ->
  configure_floppy params (Some vm) self = finished self.
Proof.
  intros Hdev Heq. unfold configure_floppy.
  destruct (on_template (Some vm)); [done |].
  by rewrite Hdev, Heq.
Qed.

(** C1. When the floppy drive of the VM already passes the equivalence check
    for the desired type and image path, a [configure_floppy] pass returns
    and leaves the helper as it found it: nothing is appended to the
    change-set, which stays empty when it was, and no change is flagged. *)
Theorem equivalent_pass_emits_nothing (params : Params) (vm : VirtualMachine)
    (floppy_device : VirtualFloppy) (self : self_t) :
  get_vm_floppy_device (Some vm) = Some floppy_device ->
  is_equal_floppy vm floppy_device (param_type params) (param_image_file params) = true ->
  configure_floppy params (Some vm) self = finished self /\
  emitted params (Some vm) = [].
Proof.
  intros Hdev Heq.
  split; [by apply (configure_floppy_equivalent _ _ floppy_device) |].
  unfold emitted.
  by rewrite (configure_floppy_equivalent _ _ floppy_device).
Qed.

Lemma equivalent_pass_emits_nothing_witness :
  configure_floppy present_none (Some (vm_with_floppy poweredOn)) init = finished init /\
  emitted present_none (Some (vm_with_floppy poweredOn)) = [].
Proof.
  apply (equivalent_pass_emits_nothing present_none (vm_with_floppy poweredOn)
           floppy_disconnected init); reflexivity.
Defined.

(** C7, as stated, fails on a template: with no floppy drive and no
    controller the present pass emits nothing there. *)
Lemma template_emits_no_controller :
  get_vm_floppy_device (Some vm_template) = None /\
  get_vm_sio_device (Some vm_template) = None /\
  emitted present_flp (Some vm_template) = [].
Proof. repeat split. Qed.

(** C7 (amended). On a VM that is not a template and has neither a floppy
    drive nor an SIO controller, for a drive that can be built (an image
    path is given when the type is ['flp']), the present pass returns having
    appended exactly two operations: first the [add] of a new SIO controller,
    then the [add] of the new floppy drive, whose [controllerKey] is the key
    of that controller. *)
Theorem bare_vm_adds_controller_then_floppy (params : Params) (vm : VirtualMachine)
    (self : self_t) :
  template vm = false ->
  get_vm_floppy_device (Some vm) = None ->
  get_vm_sio_device (Some vm) = None ->
  buildable params ->
  exists sio_ctl floppy,
    emitted params (Some vm) =
      [ {| operation := add; device := SIOController sio_ctl |};
        {| operation := add; device := Floppy floppy |} ] /\
    controllerKey floppy = sio_key sio_ctl /\
    raised (configure_floppy params (Some vm) self) = None /\
    deviceChange (configspec (after (configure_floppy params (Some vm) self))) =
      (deviceChange (configspec self) ++
       [ {| operation := add; device := SIOController sio_ctl |};
         {| operation := add; device := Floppy floppy |} ])%list.
Proof.
  intros Htpl Hdev Hsio Hb.
  destruct (new_floppy_spec_built params (Some vm) (inl create_sio_controller) Hb)
    as [floppy_spec Hspec].
  destruct (new_floppy_spec_shape _ _ _ _ Hspec) as (floppy & -> & _ & Hkey & _).
  assert (Hpass : forall s,
             configure_floppy params (Some vm) s =
               finished (detect_and_append {| operation := add; device := Floppy floppy |}
                           (detect_and_append create_sio_controller s))).
  { intros s. unfold configure_floppy. simpl on_template.
    by rewrite Htpl, Hdev, Hsio, Hspec. }
  exists {| sio_key := 0; busNumber := 0 |}, floppy.
  assert (Hem : emitted params (Some vm) =
                  [ create_sio_controller;
                    {| operation := add; device := Floppy floppy |} ]).
  { unfold emitted. by rewrite Hpass. }
  split; [exact Hem |]. split; [exact Hkey |]. split; [by rewrite Hpass |].
  by rewrite configure_floppy_appends, Hem.
Qed.

Lemma bare_vm_adds_controller_then_floppy_witness :
  exists sio_ctl floppy,
    emitted present_flp (Some vm_bare) =
      [ {| operation := add; device := SIOController sio_ctl |};
        {| operation := add; device := Floppy floppy |} ] /\
    controllerKey floppy = sio_key sio_ctl /\
    raised (configure_floppy present_flp (Some vm_bare) init) = None /\
    deviceChange (configspec (after (configure_floppy present_flp (Some vm_bare) init))) =
      (deviceChange (configspec init) ++
       [ {| operation := add; device := SIOController sio_ctl |};
         {| operation := add; device := Floppy floppy |} ])%list.
Proof.
  apply (bare_vm_adds_controller_then_floppy present_flp vm_bare init);
    try reflexivity.
  intros _. discriminate.
Defined.

(** The scenario of the specification, computed: an image-backed floppy on
    the bare VM. *)
Example bare_vm_image_scenario :
  emitted present_flp (Some vm_bare) =
    [ {| operation := add;
         device := SIOController {| sio_key := 0; busNumber := 0 |} |};
      {| operation := add;
         device := Floppy
           {| key := -1; controllerKey := 0;
              backing := Some (ImageBackingInfo (Some "[datastore1] base.flp"));
              connectable := {| allowGuestControl := true; startConnected := true;
                                connected := false |} |} |} ].
Proof. reflexivity. Qed.

(** Without the image path the same pass appends the controller and then
    dies of [TypeError] in [create_floppy]: no floppy drive is added. *)
Lemma bare_vm_flp_without_image_dies params vm self :
  template vm = false ->
  get_vm_floppy_device (Some vm) = None ->
  get_vm_sio_device (Some vm) = None ->
  param_type params = Some "flp" ->
  param_image_file params = None ->
  configure_floppy params (Some vm) self =
    died TypeError (detect_and_append create_sio_controller self).
Proof.
  intros Htpl Hdev Hsio Hty Himg. unfold configure_floppy. simpl on_template.
  rewrite Htpl, Hdev, Hsio. unfold new_floppy_spec. by rewrite Hty, Himg.
Qed.

(** On a VM that is not powered on, an [add] of a floppy drive carries
    [startConnected] as [create_floppy] set it. *)
Lemma added_floppy_start_connected params vm floppy :
  powerState vm <> poweredOn ->
  In {| operation := add; device := Floppy floppy |} (emitted params (Some vm)) ->
  startConnected (connectable floppy) = py_ne (param_type params) "none".
Proof.
  intros Hoff. apply powered_on_false in Hoff.
  assert (Hnew : forall sio_device floppy_spec,
             new_floppy_spec params (Some vm) sio_device = Built floppy_spec ->
             floppy_spec = {| operation := add; device := Floppy floppy |} ->
             startConnected (connectable floppy) = py_ne (param_type params) "none").
  { intros sio_device floppy_spec Hspec ->.
    destruct (new_floppy_spec_shape _ _ _ _ Hspec) as (f & [= <-] & _ & _ & _ & Hsc).
    simpl in Hsc. by rewrite Hoff in Hsc. }
  unfold emitted, configure_floppy.
  destruct (on_template (Some vm)); [intros [] |].
  destruct (get_vm_floppy_device (Some vm)) as [floppy_device |].
  - destruct (negb _); simpl; [| intros []].
    destruct (edited_floppy params (Some vm) floppy_device); simpl; [| intros []].
    intros [H | []]. discriminate H.
  - destruct (get_vm_sio_device (Some vm)) as [sio_device |].
    + destruct (new_floppy_spec params (Some vm) (inr sio_device)) eqn:Hspec; simpl;
        [| intros []].
      intros [H | []]. by apply (Hnew _ _ Hspec).
    + destruct (new_floppy_spec params (Some vm) (inl create_sio_controller))
        eqn:Hspec; simpl.
      * intros [H | [H | []]]; [discriminate H | by apply (Hnew _ _ Hspec)].
      * intros [H | []]. discriminate H.
Qed.

(** C10. When a floppy drive is created on a VM that is not powered on (the
    VM is not a template, has no floppy drive, and the drive can be built),
    the pass emits the [add] of a floppy drive whose [startConnected] is
    [type != 'none'], whatever [start_connected] says; no other [add] of a
    floppy drive is emitted; and the whole pass is the same for either value
    of [start_connected]: the parameter can only matter for a powered-on VM
    or for the edit of an existing drive. *)
Theorem new_floppy_start_connected (params : Params) (vm : VirtualMachine) :
  powerState vm <> poweredOn ->
  template vm = false ->
  get_vm_floppy_device (Some vm) = None ->
  buildable params ->
  (exists floppy,
     In {| operation := add; device := Floppy floppy |} (emitted params (Some vm)) /\
     startConnected (connectable floppy) = py_ne (param_type params) "none" /\
     forall floppy',
       In {| operation := add; device := Floppy floppy' |} (emitted params (Some vm)) ->
       floppy' = floppy) /\
  (forall b self,
     configure_floppy (with_start_connected b params) (Some vm) self =
     configure_floppy params (Some vm) self) /\
  (forall b, emitted (with_start_connected b params) (Some vm) = emitted params (Some vm)).
Proof.
  intros Hoff Htpl Hdev Hb.
  assert (Hsame : forall b self,
             configure_floppy (with_start_connected b params) (Some vm) self =
             configure_floppy params (Some vm) self).
  { intros b self. unfold configure_floppy. simpl on_template. rewrite Htpl, Hdev.
    unfold new_floppy_spec. simpl on_powered_on.
    apply powered_on_false in Hoff. by rewrite Hoff. }
  split; [| split; [exact Hsame |]].
  - assert (Hex : exists floppy rest,
               emitted params (Some vm) =
                 (rest ++ [ {| operation := add; device := Floppy floppy |} ])%list /\
               forall spec, In spec rest -> exists c, device spec = SIOController c).
    { unfold emitted, configure_floppy. simpl on_template. rewrite Htpl, Hdev.
      destruct (get_vm_sio_device (Some vm)) as [sio_device |].
      - destruct (new_floppy_spec_built params (Some vm) (inr sio_device) Hb)
          as [floppy_spec Hspec].
        destruct (new_floppy_spec_shape _ _ _ _ Hspec) as (floppy & -> & _).
        rewrite Hspec. exists floppy, []. split; [done |]. intros spec [].
      - destruct (new_floppy_spec_built params (Some vm) (inl create_sio_controller) Hb)
          as [floppy_spec Hspec].
        destruct (new_floppy_spec_shape _ _ _ _ Hspec) as (floppy & -> & _).
        rewrite Hspec. exists floppy, [create_sio_controller]. split; [done |].
        intros spec [<- | []]. by eexists. }
    destruct Hex as (floppy & rest & Hem & Hrest).
    exists floppy. split; [| split].
    + rewrite Hem. apply in_or_app. right. by left.
    + apply (added_floppy_start_connected params vm floppy Hoff).
      rewrite Hem. apply in_or_app. right. by left.
    + intros floppy' Hin. rewrite Hem in Hin. apply in_app_or in Hin.
      destruct Hin as [Hin | [H | []]].
      * destruct (Hrest _ Hin) as [c Hc]. discriminate Hc.
      * congruence.
  - intros b. unfold emitted. by rewrite Hsame.
Qed.

Lemma new_floppy_start_connected_witness :
  (exists floppy,
     In {| operation := add; device := Floppy floppy |}
        (emitted present_flp (Some vm_bare)) /\
     startConnected (connectable floppy) = py_ne (param_type present_flp) "none" /\
     forall floppy',
       In {| operation := add; device := Floppy floppy' |}
          (emitted present_flp (Some vm_bare)) ->
       floppy' = floppy) /\
  (forall b self,
     configure_floppy (with_start_connected b present_flp) (Some vm_bare) self =
     configure_floppy present_flp (Some vm_bare) self) /\
  (forall b, emitted (with_start_connected b present_flp) (Some vm_bare)
             = emitted present_flp (Some vm_bare)).
Proof.
  apply (new_floppy_start_connected present_flp vm_bare).
  - discriminate.
  - reflexivity.
  - reflexivity.
  - intros _. discriminate.
Defined.

(** Where the parameter does matter: the same creation on a powered-on VM. *)
Example start_connected_matters_when_powered_on :
  let vm := {| template := false; powerState := poweredOn; hardware_device := [] |} in
  emitted (with_start_connected true present_client) (Some vm) <>
  emitted (with_start_connected false present_client) (Some vm).
Proof. discriminate. Qed.

(** ** apply_floppy_op: validation and the decision to send *)

Lemma reconcile_absent params vm :
  param_state params = "absent" ->
  reconcile params vm init = Return (remove_floppy (Some vm) init).
Proof. intros Hs. unfold reconcile. by rewrite Hs. Qed.

(** With one of the three types the checks let the present pass run, and
    the pass decides how [reconcile] ends. *)
Lemma reconcile_present params vm :
  param_state params = "present" ->
  valid_type params ->
  reconcile params vm init =
    match raised (configure_floppy params (Some vm) init) with
    | None => Return (after (configure_floppy params (Some vm) init))
    | Some e => Raise e
    end.
Proof.
  intros Hs Hty. unfold reconcile. rewrite Hs.
  destruct Hty as [Hty | [Hty | Hty]]; by rewrite Hty.
Qed.

Lemma reconcile_present_returns params vm :
  param_state params = "present" ->
  valid_type params ->
  raised (configure_floppy params (Some vm) init) = None ->
  reconcile params vm init = Return (after (configure_floppy params (Some vm) init)).
Proof.
  intros Hs Hty Hraised. by rewrite (reconcile_present _ _ Hs Hty), Hraised.
Qed.

Lemma configure_floppy_template params vm_obj self :
  on_template vm_obj = true ->
  configure_floppy params vm_obj self = finished self.
Proof. intros Htpl. unfold configure_floppy. by rewrite Htpl. Qed.

Lemma remove_floppy_detects vm_obj :
  change_detected (remove_floppy vm_obj init) = true <-> removed vm_obj <> [].
Proof.
  unfold removed, remove_floppy.
  destruct (on_template vm_obj); [simpl; split; congruence |].
  destruct (get_vm_floppy_device vm_obj); simpl; split; congruence.
Qed.

(** Whatever pass ran from a fresh helper, the flag is set exactly when the
    change-set is not empty. *)
Lemma reconcile_detects params vm self' :
  reconcile params vm init = Return self' ->
  change_detected self' = true <-> deviceChange (configspec self') <> [].
Proof.
  unfold reconcile.
  destruct (bool_decide (param_state params = "absent")).
  { intros [= <-]. apply remove_floppy_detects. }
  destruct (bool_decide (param_state params = "present")); [| discriminate].
  destruct (negb (truthy _)); [discriminate |].
  destruct (negb (py_in _ _)); [discriminate |].
  destruct (_ && _); [discriminate |].
  destruct (raised _); [discriminate |].
  intros [= <-]. apply configure_floppy_detects.
Qed.

Lemma send_nothing srv fuel vm self :
  change_detected self = false ->
  send srv fuel vm self =
    {| result := Return (unchanged vm); submitted := []; vm_after := vm |}.
Proof. intros H. unfold send. by rewrite H. Qed.

Lemma flags_unchanged r vm :
  result r = Return (unchanged vm) ->
  flag "changed" r = Some (VBool false) /\ flag "failed" r = Some (VBool false).
Proof. intros H. unfold flag. rewrite H. split; reflexivity. Qed.

(** A pass that returns with an empty change-set is followed by no call. *)
Lemma empty_change_set_is_not_sent srv fuel params vm self' :
  reconcile params vm init = Return self' ->
  deviceChange (configspec self') = [] ->
  let r := apply_floppy_op srv fuel params init vm in
  result r = Return (unchanged vm) /\
  flag "changed" r = Some (VBool false) /\
  flag "failed" r = Some (VBool false) /\
  submitted r = [].
Proof.
  intros Hrec Hempty r.
  assert (Hflag : change_detected self' = false).
  { destruct (change_detected self') eqn:Hcd; [| done].
    apply (reconcile_detects _ _ _ Hrec) in Hcd. contradiction. }
  assert (Hr : r = {| result := Return (unchanged vm); submitted := [];
                      vm_after := vm |}).
  { subst r. unfold apply_floppy_op. rewrite Hrec. by apply send_nothing. }
  rewrite Hr. split; [done |].
  destruct (flags_unchanged {| result := Return (unchanged vm); submitted := [];
                               vm_after := vm |} vm eq_refl) as [Hc Hf].
  by rewrite Hc, Hf.
Qed.

(** C5. When the pass leaves the change-set empty, [apply_floppy_op] returns
    [changed: False, failed: False] (with the gathered facts) and never calls
    [ReconfigVM_Task]; this is what happens for [state: absent] on a VM that
    has no floppy drive. *)
Theorem no_change_no_submission (srv : vCenter) (fuel : nat) (params : Params)
    (vm : VirtualMachine) :
  let r := apply_floppy_op srv fuel params init vm in
  (forall self',
     reconcile params vm init = Return self' ->
     deviceChange (configspec self') = [] ->
     result r = Return (unchanged vm) /\
     flag "changed" r = Some (VBool false) /\
     flag "failed" r = Some (VBool false) /\
     submitted r = []) /\
  (param_state params = "absent" ->
   get_vm_floppy_device (Some vm) = None ->
   result r = Return (unchanged vm) /\
   flag "changed" r = Some (VBool false) /\
   flag "failed" r = Some (VBool false) /\
   submitted r = []).
Proof.
  intros r. split.
  - intros self' Hrec Hempty.
    by apply (empty_change_set_is_not_sent srv fuel params vm self').
  - intros Hs Hdev.
    apply (empty_change_set_is_not_sent srv fuel params vm (remove_floppy (Some vm) init));
      [by apply reconcile_absent |].
    unfold remove_floppy. destruct (on_template (Some vm)); [done |].
    by rewrite Hdev.
Qed.

Lemma no_change_no_submission_witness :
  let r := apply_floppy_op (Server.restricted "refused" vm_bare) 0 absent_default init
             vm_bare in
  (result r = Return (unchanged vm_bare) /\
   flag "changed" r = Some (VBool false) /\
   flag "failed" r = Some (VBool false) /\
   submitted r = []) /\
  (result r = Return (unchanged vm_bare) /\
   flag "changed" r = Some (VBool false) /\
   flag "failed" r = Some (VBool false) /\
   submitted r = []).
Proof.
  pose proof (no_change_no_submission (Server.restricted "refused" vm_bare) 0
                absent_default vm_bare) as [Hpass Habsent].
  split.
  - apply (Hpass init); reflexivity.
  - apply Habsent; reflexivity.
Defined.

(** C6. On a template, for every descriptor and for both target states,
    neither pass appends an operation, and [apply_floppy_op] returns
    [changed: False, failed: False] without calling [ReconfigVM_Task]: it
    neither fails nor raises. *)
Theorem template_is_noop (srv : vCenter) (fuel : nat) (name uuid : option string)
    (target : Target) (d : Descriptor) (vm : VirtualMachine) :
  template vm = true ->
  let params := descriptor_params name uuid target d in
  let r := apply_floppy_op srv fuel params init vm in
  emitted params (Some vm) = [] /\
  removed (Some vm) = [] /\
  result r = Return (unchanged vm) /\
  flag "changed" r = Some (VBool false) /\
  flag "failed" r = Some (VBool false) /\
  submitted r = [].
Proof.
  intros Htpl params r.
  assert (Hpass : configure_floppy params (Some vm) init = finished init).
  { by apply configure_floppy_template. }
  assert (Hem : emitted params (Some vm) = []).
  { unfold emitted. by rewrite Hpass. }
  assert (Hrm : removed (Some vm) = []).
  { unfold removed, remove_floppy. simpl on_template. by rewrite Htpl. }
  split; [exact Hem |]. split; [exact Hrm |].
  destruct target.
  - apply (empty_change_set_is_not_sent srv fuel params vm
             (after (configure_floppy params (Some vm) init))); [| exact Hem].
    apply reconcile_present_returns; [done | | by rewrite Hpass].
    unfold valid_type, params. simpl. destruct (kind d); simpl; auto.
  - apply (empty_change_set_is_not_sent srv fuel params vm
             (remove_floppy (Some vm) init)); [| exact Hrm].
    by apply reconcile_absent.
Qed.

Lemma template_is_noop_witness :
  let params := descriptor_params (Some "vm01") None present
                  {| kind := ImageBacked; imagePath := None;
                     startConnected_wanted := true |} in
  let r := apply_floppy_op (Server.restricted "refused" vm_template) 0 params init
             vm_template in
  emitted params (Some vm_template) = [] /\
  removed (Some vm_template) = [] /\
  result r = Return (unchanged vm_template) /\
  flag "changed" r = Some (VBool false) /\
  flag "failed" r = Some (VBool false) /\
  submitted r = [].
Proof.
  apply (template_is_noop (Server.restricted "refused" vm_template) 0 (Some "vm01") None
           present _ vm_template).
  reflexivity.
Defined.

(** The check on [image_file] sits behind the check that [type] is one of
    ['none'], ['client'], ['flp'], and asks for [type == 'image_file']: no
    parameters reach its [fail_json]. *)
Lemma image_file_check_is_dead params :
  py_in (param_type params) ["none"; "client"; "flp"] = true ->
  py_eq (param_type params) "image_file" = false.
Proof.
  intros Hin. apply py_eq_false. intros Hty. rewrite Hty in Hin. discriminate Hin.
Qed.

(** With [type: flp] the validation lets the parameters through whether an
    [image_file] is given or not: [reconcile] never ends in the [fail_json] of
    a check, it ends as the present pass ends. *)
Lemma flp_without_image_file_is_accepted params vm :
  param_state params = "present" ->
  param_type params = Some "flp" ->
  reconcile params vm init =
    match raised (configure_floppy params (Some vm) init) with
    | None => Return (after (configure_floppy params (Some vm) init))
    | Some e => Raise e
    end.
Proof. intros Hs Hty. apply reconcile_present; unfold valid_type; auto. Qed.

(** C3 (the code departs from the claim). With [state: present], [type: flp]
    and no [image_file], the validation lets the parameters through.  On a
    template the run then returns [changed: False, failed: False]: it does not
    fail at all.  On the bare VM it dies of the [TypeError] of the image
    backing, after the controller was appended and with nothing sent: an
    exception, not the [fail_json] of a check.  With an empty [image_file],
    which the check would also count as missing, the change-set with an
    empty file name is handed to [ReconfigVM_Task]. *)
Theorem flp_without_image_file_is_not_refused :
  (let r := apply_floppy_op (Server.carries_out 0 vm_template) 0 present_flp_no_image
              init vm_template in
   result r = Return (unchanged vm_template) /\
   flag "failed" r = Some (VBool false) /\
   submitted r = []) /\
  (let r := apply_floppy_op (Server.carries_out 0 vm_bare) 0 present_flp_no_image
              init vm_bare in
   configure_floppy present_flp_no_image (Some vm_bare) init =
     died TypeError (detect_and_append create_sio_controller init) /\
   result r = Raise TypeError /\
   submitted r = []) /\
  (let r := apply_floppy_op (Server.carries_out 0 vm_bare) 0 present_flp_empty_image
              init vm_bare in
   truthy (param_image_file present_flp_empty_image) = false /\
   submitted r =
     [ {| deviceChange :=
            [ {| operation := add;
                 device := SIOController {| sio_key := 0; busNumber := 0 |} |};
              {| operation := add;
                 device := Floppy
                   {| key := -1; controllerKey := 0;
                      backing := Some (ImageBackingInfo (Some ""));
                      connectable := {| allowGuestControl := true;
                                        startConnected := true;
                                        connected := false |} |} |} ] |} ] /\
   flag "changed" r = Some (VBool true) /\
   flag "failed" r = Some (VBool false)).
Proof. repeat split. Qed.

(** ** main *)

(** [type] is taken from the task as it is: omitted, it is [None]. *)
Lemma module_params_type args params :
  module_params args = Some params -> param_type params = arg_type args.
Proof.
  unfold module_params.
  destruct (negb (_ || _)); [discriminate |].
  destruct (bool_decide (is_Some (arg_uuid args))); [discriminate |].
  destruct (negb (_ || _)); [discriminate |].
  intros [= <-]. simpl. by destruct (arg_type args).
Qed.

Lemma module_params_state args params :
  module_params args = Some params ->
  param_state params = "present" \/ param_state params = "absent".
Proof.
  unfold module_params.
  destruct (negb (_ || _)) eqn:Hstate; [discriminate |].
  destruct (bool_decide (is_Some (arg_uuid args))); [discriminate |].
  destruct (negb (bool_decide (is_Some _) || _)); [discriminate |].
  intros [= <-]. simpl.
  apply negb_false_iff in Hstate. apply orb_true_iff in Hstate.
  destruct Hstate as [H | H]; apply bool_decide_eq_true in H; auto.
Qed.

(** Accepted arguments carry a [name] and no [uuid]. *)
Lemma module_params_uuid args params :
  module_params args = Some params -> param_uuid params = None.
Proof.
  unfold module_params.
  destruct (negb (_ || _)); [discriminate |].
  destruct (bool_decide (is_Some (arg_uuid args))); [discriminate |].
  destruct (negb (_ || _)); [discriminate |].
  by intros [= <-].
Qed.

Lemma module_params_name args params :
  module_params args = Some params -> exists n, param_name params = Some n.
Proof.
  unfold module_params.
  destruct (negb (_ || _)); [discriminate |].
  destruct (bool_decide (is_Some (arg_uuid args))) eqn:Huuid; [discriminate |].
  destruct (negb (_ || _)) eqn:Hone; [discriminate |].
  intros [= <-]. simpl.
  apply negb_false_iff in Hone. apply orb_true_iff in Hone.
  destruct Hone as [H | H]; [| discriminate H].
  apply bool_decide_eq_true in H. by destruct H as [n ->]; exists n.
Qed.

Lemma type_mandatory params vm self :
  param_state params = "present" ->
  param_type params = None ->
  reconcile params vm self = fail_msg msg_type_mandatory.
Proof. intros Hs Hty. unfold reconcile. by rewrite Hs, Hty. Qed.

(** C9, as stated, fails when the VM does not exist: the module then stops
    with the message about the missing VM, before [type] is looked at. *)
Lemma default_type_on_missing_vm :
  arg_type args_default = None /\
  arg_state args_default = Some "present" /\
  main Server.without_vm 0 args_default =
    (fail_json {[ "msg" := VStr "Unable to manage floppy disk for non-existing VM vm01" ]},
     []) /\
  reported (fst (main Server.without_vm 0 args_default)) !! "msg"
    <> Some (VStr "type is mandatory").
Proof. repeat split. discriminate. Qed.

(** C9 (amended). When the task arguments are accepted with [state] being
    ['present'], [type] is omitted and the VM exists, the module leaves through
    [fail_json] with the message ['type is mandatory'] and has not called
    [ReconfigVM_Task]: omitted, [type] is [None], not ['none']. *)
Theorem default_type_is_rejected (srv : vCenter) (fuel : nat) (args : Args)
    (params : Params) (vm : VirtualMachine) :
  module_params args = Some params ->
  param_state params = "present" ->
  arg_type args = None ->
  get_vm srv params = Some vm ->
  param_type params = None /\
  main srv fuel args = (fail_json {[ "msg" := VStr "type is mandatory" ]}, []) /\
  reported (fst (main srv fuel args)) !! "msg" = Some (VStr "type is mandatory") /\
  reported (fst (main srv fuel args)) !! "failed" = Some (VBool true).
Proof.
  intros Hargs Hs Hty Hvm.
  assert (Hnone : param_type params = None).
  { by rewrite (module_params_type _ _ Hargs). }
  assert (Hmain : main srv fuel args
                  = (fail_json {[ "msg" := VStr "type is mandatory" ]}, [])).
  { unfold main. rewrite Hargs, Hvm. unfold apply_floppy_op.
    by rewrite (type_mandatory _ _ _ Hs Hnone). }
  split; [exact Hnone |]. split; [exact Hmain |].
  rewrite Hmain. split; reflexivity.
Qed.

Lemma default_type_is_rejected_witness :
  param_type (params_of "present" None None false) = None /\
  main (Server.carries_out 0 vm_bare) 0 args_default
    = (fail_json {[ "msg" := VStr "type is mandatory" ]}, []) /\
  reported (fst (main (Server.carries_out 0 vm_bare) 0 args_default)) !! "msg"
    = Some (VStr "type is mandatory") /\
  reported (fst (main (Server.carries_out 0 vm_bare) 0 args_default)) !! "failed"
    = Some (VBool true).
Proof.
  apply (default_type_is_rejected (Server.carries_out 0 vm_bare) 0 args_default
           (params_of "present" None None false) vm_bare); reflexivity.
Defined.

(** C8, as stated, fails for a [RestrictedVersion] raised by
    [ReconfigVM_Task]: the change-set was sent and refused, and the module
    leaves through [fail_json] with the message alone, so the reported result
    has no [changed] flag. *)
Lemma restricted_version_reports_no_change :
  let out := main (Server.restricted "needs a license" vm_bare) 0 args_none in
  length (snd out) = 1%nat /\
  reported (fst out) !! "failed" = Some (VBool true) /\
  reported (fst out) !! "changed" = None /\
  reported (fst out) !! "changed" <> Some (VBool true).
Proof. repeat split. discriminate. Qed.

(** C8 (amended). When [ReconfigVM_Task] raises [RestrictedVersion] for the
    change-set of the pass, the module leaves through [fail_json]: the
    reported result has [failed] true, no [changed] flag, and its message is
    the fixed prefix followed by the message of the fault, unaltered. *)
Theorem restricted_version_is_reported (srv : vCenter) (fuel : nat) (args : Args)
    (params : Params) (vm : VirtualMachine) (self' : self_t) (msg : string) :
  module_params args = Some params ->
  get_vm srv params = Some vm ->
  reconcile params vm init = Return self' ->
  change_detected self' = true ->
  ReconfigVM_Task srv vm (configspec self') = RestrictedVersion msg ->
  let out := main srv fuel args in
  snd out = [configspec self'] /\
  fst out = fail_json {[ "msg" := VStr (msg_restricted_version ++ msg) ]} /\
  reported (fst out) !! "failed" = Some (VBool true) /\
  reported (fst out) !! "msg" = Some (VStr (msg_restricted_version ++ msg)) /\
  reported (fst out) !! "changed" = None.
Proof.
  intros Hargs Hvm Hrec Hcd Hsrv out.
  assert (Hout : out = (fail_json {[ "msg" := VStr (msg_restricted_version ++ msg) ]},
                        [configspec self'])).
  { subst out. unfold main. rewrite Hargs, Hvm. unfold apply_floppy_op.
    rewrite Hrec. unfold send. by rewrite Hcd, Hsrv. }
  rewrite Hout. repeat split.
Qed.

Lemma restricted_version_is_reported_witness :
  let out := main (Server.restricted "needs a license" vm_bare) 0 args_none in
  snd out = [configspec (after (configure_floppy present_none (Some vm_bare) init))] /\
  fst out = fail_json {[ "msg" := VStr (msg_restricted_version ++ "needs a license") ]} /\
  reported (fst out) !! "failed" = Some (VBool true) /\
  reported (fst out) !! "msg"
    = Some (VStr (msg_restricted_version ++ "needs a license")) /\
  reported (fst out) !! "changed" = None.
Proof.
  apply (restricted_version_is_reported (Server.restricted "needs a license" vm_bare) 0
           args_none present_none vm_bare
           (after (configure_floppy present_none (Some vm_bare) init)) "needs a license");
    reflexivity.
Defined.

(** The other way a change can be refused: the task is accepted and ends in
    the ['error'] state.  Then the dictionary that is returned, and reported
    through [fail_json], has [changed] and [failed] true and the message of
    the task's error. *)
Lemma failed_task_is_reported srv fuel args params vm self' task settled now msg :
  module_params args = Some params ->
  get_vm srv params = Some vm ->
  reconcile params vm init = Return self' ->
  change_detected self' = true ->
  ReconfigVM_Task srv vm (configspec self') = Submitted task settled ->
  wait_for_task fuel task 0 = Some now ->
  task now = {| state := error; error_msg := msg |} ->
  let out := main srv fuel args in
  reported (fst out) !! "changed" = Some (VBool true) /\
  reported (fst out) !! "failed" = Some (VBool true) /\
  reported (fst out) !! "msg" = Some (VStr msg).
Proof.
  intros Hargs Hvm Hrec Hcd Hsrv Hwait Htask out.
  subst out. unfold main. rewrite Hargs, Hvm. unfold apply_floppy_op.
  rewrite Hrec. unfold send. rewrite Hcd, Hsrv, Hwait, Htask. simpl.
  repeat split.
Qed.

(** ** Two runs in a row *)

Lemma wait_for_task_done delay fuel now :
  (now <= delay)%nat -> (delay - now <= fuel)%nat ->
  wait_for_task fuel (Server.task_done_after delay) now = Some delay.
Proof.
  revert now. induction fuel as [| fuel IH]; intros now Hle Hfuel.
  - assert (now = delay) as -> by lia.
    simpl. unfold Server.task_done_after. simpl.
    by rewrite (proj2 (Nat.ltb_ge delay delay)) by lia.
  - simpl. unfold Server.task_done_after at 1. simpl.
    destruct (now <? delay)%nat eqn:Hlt; simpl.
    + apply Nat.ltb_lt in Hlt. apply IH; lia.
    + apply Nat.ltb_ge in Hlt. f_equal. lia.
Qed.

Lemma first_floppy_app l1 l2 :
  first_floppy (l1 ++ l2) =
  match first_floppy l1 with
  | Some f => Some f
  | None => first_floppy l2
  end.
Proof.
  induction l1 as [| d l1 IH]; [done |].
  destruct d; simpl; auto.
Qed.

(** An edit replaces the device that carries the key: the first floppy drive
    of the VM becomes the edited one. *)
Lemma first_floppy_edit devices floppy_device edited :
  first_floppy devices = Some floppy_device ->
  key edited = key floppy_device ->
  first_floppy
    (map (fun d => if Server.same_key d (Floppy edited) then Floppy edited else d)
         devices) = Some edited.
Proof.
  intros Hfirst Hkey. induction devices as [| d devices IH]; [discriminate |].
  destruct d as [f | c | k]; simpl in *.
  - injection Hfirst as ->. unfold Server.same_key. simpl.
    by rewrite bool_decide_eq_true_2.
  - destruct (Server.same_key _ _); simpl; auto.
  - destruct (Server.same_key _ _); simpl; auto.
Qed.

Lemma fileName_is_same flp_path :
  fileName_is (Some (ImageBackingInfo flp_path)) flp_path = true.
Proof. simpl. by apply bool_decide_eq_true. Qed.

(** The equivalence check reads the power state of the VM and nothing else
    of it. *)
Lemma is_equal_floppy_power vm vm' floppy_device floppy_type flp_path :
  powerState vm' = powerState vm ->
  is_equal_floppy vm' floppy_device floppy_type flp_path =
  is_equal_floppy vm floppy_device floppy_type flp_path.
Proof.
  intros Hps. unfold is_equal_floppy, powered_on. by rewrite Hps.
Qed.

(** The drive written by a creation passes the check, when [start_connected]
    agrees with it or the VM is off. *)
Lemma created_floppy_is_equal params vm sio_device floppy :
  valid_type params ->
  (param_type params = Some "none" \/ param_start_connected params = true \/
   powerState vm <> poweredOn) ->
  new_floppy_spec params (Some vm) sio_device =
    Built {| operation := add; device := Floppy floppy |} ->
  is_equal_floppy vm floppy (param_type params) (param_image_file params) = true.
Proof.
  intros Hty Hsettles. unfold new_floppy_spec, create_floppy. simpl on_powered_on.
  unfold is_equal_floppy.
  destruct (param_image_file params) as [path |] eqn:Himg.
  - destruct (powered_on vm) eqn:Hon.
    + assert (Hsc : param_type params = Some "none" \/
                    param_start_connected params = true).
      { destruct Hsettles as [H | [H | H]]; auto.
        apply powered_on_true in Hon. contradiction. }
      destruct Hty as [Hty | [Hty | Hty]]; rewrite Hty; simpl;
        intros [= <-]; simpl; try reflexivity.
      * destruct Hsc as [Hsc | Hsc]; [congruence | by rewrite Hsc].
      * destruct Hsc as [Hsc | Hsc]; [congruence |].
        by rewrite Hsc, bool_decide_eq_true_2.
    + destruct Hty as [Hty | [Hty | Hty]]; rewrite Hty; simpl;
        intros [= <-]; simpl; try reflexivity.
      by rewrite bool_decide_eq_true_2.
  - destruct (powered_on vm) eqn:Hon.
    + assert (Hsc : param_type params = Some "none" \/
                    param_start_connected params = true).
      { destruct Hsettles as [H | [H | H]]; auto.
        apply powered_on_true in Hon. contradiction. }
      destruct Hty as [Hty | [Hty | Hty]]; rewrite Hty; simpl; try discriminate;
        intros [= <-]; simpl; try reflexivity.
      destruct Hsc as [Hsc | Hsc]; [congruence | by rewrite Hsc].
    + destruct Hty as [Hty | [Hty | Hty]]; rewrite Hty; simpl; try discriminate;
        intros [= <-]; simpl; reflexivity.
Qed.

(** The edit only refuses ['flp'] without a path. *)
Lemma edited_floppy_built params vm_obj floppy_device :
  buildable params ->
  exists edited, edited_floppy params vm_obj floppy_device = Built edited.
Proof.
  intros Hb. unfold edited_floppy.
  destruct (py_in (param_type params) ["client"; "none"]); [eauto |].
  destruct (py_eq (param_type params) "flp") eqn:Hflp; [| eauto].
  apply py_eq_true in Hflp.
  destruct (param_image_file params) eqn:Himg; simpl; [eauto |].
  by destruct (Hb Hflp).
Qed.

Lemma edited_floppy_key params vm_obj floppy_device edited :
  edited_floppy params vm_obj floppy_device = Built edited ->
  key edited = key floppy_device /\
  controllerKey edited = controllerKey floppy_device /\
  allowGuestControl (connectable edited) = true /\
  startConnected (connectable edited) =
    py_ne (param_type params) "none" && param_start_connected params.
Proof.
  unfold edited_floppy.
  destruct (py_in (param_type params) ["client"; "none"]); [by intros [= <-] |].
  destruct (py_eq (param_type params) "flp"); [| by intros [= <-]].
  destruct (param_image_file params); simpl; [by intros [= <-] | discriminate].
Qed.

(** The drive written by an edit passes the check, when [start_connected]
    agrees with it. *)
Lemma edited_floppy_is_equal params vm floppy_device edited :
  valid_type params ->
  (param_type params = Some "none" \/ param_start_connected params = true) ->
  edited_floppy params (Some vm) floppy_device = Built edited ->
  is_equal_floppy vm edited (param_type params) (param_image_file params) = true.
Proof.
  intros Hty Hsc. unfold is_equal_floppy, edited_floppy. simpl on_powered_on.
  destruct (param_image_file params) as [path |] eqn:Himg;
    destruct Hty as [Hty | [Hty | Hty]]; rewrite Hty; simpl; try discriminate;
    intros [= <-]; simpl.
  - by destruct (powered_on vm).
  - destruct Hsc as [Hsc | Hsc]; [congruence |]. rewrite Hsc.
    by destruct (powered_on vm).
  - destruct Hsc as [Hsc | Hsc]; [congruence |].
    rewrite Hsc, bool_decide_eq_true_2 by done.
    by destruct (powered_on vm).
  - by destruct (powered_on vm).
  - destruct Hsc as [Hsc | Hsc]; [congruence |]. rewrite Hsc.
    by destruct (powered_on vm).
Qed.

(** What the present pass does on a VM that is not a template and whose
    state is not yet the desired one, for a drive that can be built: it
    returns with a change flagged, and the VM reconfigured with its
    change-set passes the check. *)
Lemma pass_reaches_equivalence params vm :
  valid_type params ->
  buildable params ->
  template vm = false ->
  ~ equivalent params vm ->
  settles params vm ->
  let pass := configure_floppy params (Some vm) init in
  raised pass = None /\
  change_detected (after pass) = true /\
  equivalent params (Server.reconfigure vm (configspec (after pass))).
Proof.
  intros Hty Hb Htpl Hne Hsettles.
  unfold configure_floppy. simpl on_template. rewrite Htpl.
  destruct (get_vm_floppy_device (Some vm)) as [floppy_device |] eqn:Hdev.
  - (* an existing drive that is not equivalent is edited *)
    destruct (is_equal_floppy vm floppy_device _ _) eqn:Heq.
    { exfalso. apply Hne. by exists floppy_device. }
    destruct (edited_floppy_built params (Some vm) floppy_device Hb) as [edited Hed].
    rewrite Hed. simpl. split; [done |]. split; [done |].
    exists edited. split.
    + simpl. unfold Server.device_change at 1. simpl.
      apply (first_floppy_edit _ floppy_device); [done |].
      by destruct (edited_floppy_key _ _ _ _ Hed).
    + rewrite (is_equal_floppy_power vm) by done.
      apply (edited_floppy_is_equal params vm floppy_device); [done | | done].
      destruct Hsettles as [H | [H | [H _]]]; auto. congruence.
  - (* a new drive, behind a new controller when there is none *)
    assert (Hsc : param_type params = Some "none" \/
                  param_start_connected params = true \/
                  powerState vm <> poweredOn).
    { destruct Hsettles as [H | [H | [_ H]]]; auto. }
    assert (Hspec : forall sio_device, exists floppy,
               new_floppy_spec params (Some vm) sio_device =
                 Built {| operation := add; device := Floppy floppy |}).
    { intros sio_device.
      destruct (new_floppy_spec_built params (Some vm) sio_device Hb) as [spec Hspec].
      destruct (new_floppy_spec_shape _ _ _ _ Hspec) as (floppy & -> & _).
      eauto. }
    simpl in Hdev.
    destruct (get_vm_sio_device (Some vm)) as [sio_device |].
    + destruct (Hspec (inr sio_device)) as [floppy Hfloppy].
      rewrite Hfloppy. simpl. split; [done |]. split; [done |].
      exists floppy. split.
      * simpl. unfold Server.device_change. simpl.
        by rewrite first_floppy_app, Hdev.
      * rewrite (is_equal_floppy_power vm) by done.
        by apply (created_floppy_is_equal params vm (inr sio_device)).
    + destruct (Hspec (inl create_sio_controller)) as [floppy Hfloppy].
      rewrite Hfloppy. simpl. split; [done |]. split; [done |].
      exists floppy. split.
      * simpl. unfold Server.device_change. simpl.
        by rewrite !first_floppy_app, Hdev.
      * rewrite (is_equal_floppy_power vm) by done.
        by apply (created_floppy_is_equal params vm (inl create_sio_controller)).
Qed.

(** A run on a VM that already passes the check sends nothing. *)
Lemma equivalent_run_is_quiet srv fuel params vm :
  param_state params = "present" ->
  valid_type params ->
  equivalent params vm ->
  apply_floppy_op srv fuel params init vm =
    {| result := Return (unchanged vm); submitted := []; vm_after := vm |}.
Proof.
  intros Hs Hty (floppy_device & Hdev & Heq).
  unfold apply_floppy_op. rewrite (reconcile_present _ _ Hs Hty).
  rewrite (configure_floppy_equivalent params vm floppy_device init Hdev Heq).
  by apply send_nothing.
Qed.

(** C4, as stated, fails when the first run finds nothing to do: on a VM
    whose drive is already disconnected, [type: none] reports
    [changed: False] at once. *)
Lemma first_run_may_report_no_change :
  let vm := vm_with_floppy poweredOff in
  let srv := Server.carries_out 0 vm in
  let r1 := apply_floppy_op srv 0 present_none init vm in
  flag "changed" r1 = Some (VBool false) /\
  flag "changed" r1 <> Some (VBool true).
Proof. split; [reflexivity | discriminate]. Qed.

(** C4 (amended). Take [state: present] with one of the three types (and
    an image path when the type is ['flp']), a VM that is not a template and
    does not yet pass the equivalence check, and a descriptor that settles
    ([type] is ['none'], or [start_connected] is true, or the drive is
    created on a VM that is not powered on).  With a server
    that carries out the change-set and completes the task, the first run
    sends one change-set and reports [changed: True, failed: False]; the VM
    it leaves passes the equivalence check; the second run sends nothing and
    reports [changed: False, failed: False]. *)
Theorem second_run_reports_no_change (delay fuel : nat) (vm0 : VirtualMachine)
    (params : Params) (vm : VirtualMachine) :
  param_state params = "present" ->
  valid_type params ->
  buildable params ->
  template vm = false ->
  ~ equivalent params vm ->
  settles params vm ->
  (delay <= fuel)%nat ->
  let srv := Server.carries_out delay vm0 in
  let r1 := apply_floppy_op srv fuel params init vm in
  let r2 := apply_floppy_op srv fuel params init (vm_after r1) in
  (flag "changed" r1 = Some (VBool true) /\
   flag "failed" r1 = Some (VBool false) /\
   length (submitted r1) = 1%nat) /\
  equivalent params (vm_after r1) /\
  (flag "changed" r2 = Some (VBool false) /\
   flag "failed" r2 = Some (VBool false) /\
   submitted r2 = [] /\
   vm_after r2 = vm_after r1).
Proof.
  intros Hs Hty Hb Htpl Hne Hsettles Hfuel srv r1 r2.
  destruct (pass_reaches_equivalence params vm Hty Hb Htpl Hne Hsettles)
    as (Hraised & Hcd & Hequiv).
  set (self' := after (configure_floppy params (Some vm) init)) in *.
  set (settled := Server.reconfigure vm (configspec self')) in *.
  assert (Hr1 : r1 = {| result := Return (changed_to settled);
                        submitted := [configspec self'];
                        vm_after := settled |}).
  { subst r1 srv. unfold apply_floppy_op.
    rewrite (reconcile_present_returns _ _ Hs Hty Hraised).
    fold self'. unfold send. rewrite Hcd. simpl ReconfigVM_Task. cbv beta iota.
    rewrite (wait_for_task_done delay fuel 0) by lia.
    unfold Server.task_done_after. simpl.
    by rewrite (proj2 (Nat.ltb_ge delay delay)) by lia. }
  assert (Hr2 : r2 = {| result := Return (unchanged settled); submitted := [];
                        vm_after := settled |}).
  { subst r2. rewrite Hr1. simpl vm_after.
    by apply equivalent_run_is_quiet. }
  rewrite Hr2, Hr1. simpl.
  repeat split; exact Hequiv.
Qed.

Lemma second_run_reports_no_change_witness :
  let vm := vm_with_floppy poweredOn in
  let srv := Server.carries_out 2 vm in
  let r1 := apply_floppy_op srv 3 present_flp init vm in
  let r2 := apply_floppy_op srv 3 present_flp init (vm_after r1) in
  (flag "changed" r1 = Some (VBool true) /\
   flag "failed" r1 = Some (VBool false) /\
   length (submitted r1) = 1%nat) /\
  equivalent present_flp (vm_after r1) /\
  (flag "changed" r2 = Some (VBool false) /\
   flag "failed" r2 = Some (VBool false) /\
   submitted r2 = [] /\
   vm_after r2 = vm_after r1).
Proof.
  apply (second_run_reports_no_change 2 3 (vm_with_floppy poweredOn)
           present_flp (vm_with_floppy poweredOn)).
  - reflexivity.
  - right; right; reflexivity.
  - intros _. discriminate.
  - reflexivity.
  - intros (floppy_device & Hdev & Heq). injection Hdev as <-. discriminate Heq.
  - right; left; reflexivity.
  - lia.
Defined.

(** Outside the descriptors that settle: an edit to [type: client] with
    [start_connected] left false writes [startConnected: False], which the
    check refuses for ['client'], so the next run edits again. *)
Example client_without_start_connected_edits_again :
  let vm := vm_with_floppy poweredOff in
  let srv := Server.carries_out 0 vm in
  let r1 := apply_floppy_op srv 0 present_client init vm in
  let r2 := apply_floppy_op srv 0 present_client init (vm_after r1) in
  flag "changed" r1 = Some (VBool true) /\
  flag "changed" r2 = Some (VBool true) /\
  submitted r2 = submitted r1.
Proof. repeat split. Qed.

(** The scenario of the specification: [type: client] with [start_connected]
    on a powered-off VM whose drive does not start connected gives one edit
    that sets [startConnected], and the VM then passes the check. *)
Example client_edit_scenario :
  let vm := vm_with_floppy poweredOff in
  emitted present_client_connected (Some vm) =
    [ {| operation := edit;
         device := Floppy
           {| key := 8000; controllerKey := 400;
              backing := Some RemoteDeviceBackingInfo;
              connectable := {| allowGuestControl := true; startConnected := true;
                                connected := false |} |} |} ] /\
  equivalent present_client_connected
    (Server.reconfigure vm
       {| deviceChange := emitted present_client_connected (Some vm) |}).
Proof.
  split; [reflexivity |].
  eexists. split; reflexivity.
Qed.

(** * Further properties of the module *)

(** ** Device lookup *)

Lemma first_floppy_none devices :
  first_floppy devices = None <-> forall f, ~ In (Floppy f) devices.
Proof.
  induction devices as [| d devices IH]; simpl.
  - split; [intros _ f [] | done].
  - destruct d as [g | c | k].
    + split; [discriminate |]. intros H. exfalso. apply (H g). by left.
    + rewrite IH. split.
      * intros H f [Hd | Hin]; [discriminate | by apply (H f)].
      * intros H f Hin. apply (H f). by right.
    + rewrite IH. split.
      * intros H f [Hd | Hin]; [discriminate | by apply (H f)].
      * intros H f Hin. apply (H f). by right.
Qed.

Lemma first_floppy_some devices f :
  first_floppy devices = Some f <->
  exists before after,
    devices = (before ++ Floppy f :: after)%list /\
    forall g, ~ In (Floppy g) before.
Proof.
  induction devices as [| d devices IH]; simpl.
  - split; [discriminate |]. intros (before & after & H & _).
    by destruct before.
  - destruct d as [g | c | k].
    + split.
      * intros [= ->]. exists [], devices. split; [done |]. intros g' [].
      * intros (before & after & H & Hno). destruct before as [| b before].
        { simpl in H. congruence. }
        injection H as <- _. exfalso. apply (Hno g). by left.
    + rewrite IH. split.
      * intros (before & after & -> & Hno).
        exists (SIOController c :: before), after. split; [done |].
        intros g [Hd | Hin]; [discriminate | by apply (Hno g)].
      * intros (before & after & H & Hno). destruct before as [| b before].
        { discriminate H. }
        injection H as <- ->. exists before, after. split; [done |].
        intros g Hin. apply (Hno g). by right.
    + rewrite IH. split.
      * intros (before & after & -> & Hno).
        exists (OtherDevice k :: before), after. split; [done |].
        intros g [Hd | Hin]; [discriminate | by apply (Hno g)].
      * intros (before & after & H & Hno). destruct before as [| b before].
        { discriminate H. }
        injection H as <- ->. exists before, after. split; [done |].
        intros g Hin. apply (Hno g). by right.
Qed.

(** X1. [get_vm_floppy_device] returns the first floppy drive in the order
    of [vm.config.hardware.device]: it answers [None] exactly when no device
    is a floppy drive, and a drive exactly when that drive is on the list
    with no floppy drive before it. *)
Theorem get_vm_floppy_device_first (vm : VirtualMachine) :
  (get_vm_floppy_device (Some vm) = None <->
     forall f, ~ In (Floppy f) (hardware_device vm)) /\
  (forall f,
     get_vm_floppy_device (Some vm) = Some f <->
     exists before after,
       hardware_device vm = (before ++ Floppy f :: after)%list /\
       forall g, ~ In (Floppy g) before).
Proof.
  split; [apply first_floppy_none |]. intros f. apply first_floppy_some.
Qed.

(** X2. [get_vm_sio_device] returns the first SIO controller of the device
    list: [None] exactly when there is none, and a controller exactly when
    it is on the list with no SIO controller before it. *)
Theorem get_vm_sio_device_first (vm : VirtualMachine) :
  (get_vm_sio_device (Some vm) = None <->
     forall c, ~ In (SIOController c) (hardware_device vm)) /\
  (forall c,
     get_vm_sio_device (Some vm) = Some c <->
     exists before after,
       hardware_device vm = (before ++ SIOController c :: after)%list /\
       forall c', ~ In (SIOController c') before).
Proof.
  simpl. generalize (hardware_device vm) as devices. intros devices. split.
  - induction devices as [| d devices IH]; simpl.
    + split; [intros _ c [] | done].
    + destruct d as [g | c | k].
      * rewrite IH. split.
        -- intros H c [Hd | Hin]; [discriminate | by apply (H c)].
        -- intros H c Hin. apply (H c). by right.
      * split; [discriminate |]. intros H. exfalso. apply (H c). by left.
      * rewrite IH. split.
        -- intros H c [Hd | Hin]; [discriminate | by apply (H c)].
        -- intros H c Hin. apply (H c). by right.
  - intros c. induction devices as [| d devices IH]; simpl.
    + split; [discriminate |]. intros (before & after & H & _).
      by destruct before.
    + destruct d as [g | c0 | k].
      * rewrite IH. split.
        -- intros (before & after & -> & Hno).
           exists (Floppy g :: before), after. split; [done |].
           intros c' [Hd | Hin]; [discriminate | by apply (Hno c')].
        -- intros (before & after & H & Hno). destruct before as [| b before].
           { discriminate H. }
           injection H as <- ->. exists before, after. split; [done |].
           intros c' Hin. apply (Hno c'). by right.
      * split.
        -- intros [= ->]. exists [], devices. split; [done |]. intros c' [].
        -- intros (before & after & H & Hno). destruct before as [| b before].
           { simpl in H. congruence. }
           injection H as <- _. exfalso. apply (Hno c0). by left.
      * rewrite IH. split.
        -- intros (before & after & -> & Hno).
           exists (OtherDevice k :: before), after. split; [done |].
           intros c' [Hd | Hin]; [discriminate | by apply (Hno c')].
        -- intros (before & after & H & Hno). destruct before as [| b before].
           { discriminate H. }
           injection H as <- ->. exists before, after. split; [done |].
           intros c' Hin. apply (Hno c'). by right.
Qed.

(** ** What the two passes emit *)

(** X3. The absent pass emits at most one operation; it emits one exactly
    when the VM is not a template and has a floppy drive, and that operation
    is the [remove] of the first floppy drive of the VM. *)
Theorem remove_pass_removes_first_floppy (vm : VirtualMachine) :
  (length (removed (Some vm)) <= 1)%nat /\
  (removed (Some vm) <> [] <->
     template vm = false /\ exists f, get_vm_floppy_device (Some vm) = Some f) /\
  (forall spec,
     In spec (removed (Some vm)) ->
     operation spec = remove /\
     exists f, device spec = Floppy f /\
               get_vm_floppy_device (Some vm) = Some f /\
               In (Floppy f) (hardware_device vm)).
Proof.
  unfold removed, remove_floppy. simpl on_template.
  destruct (template vm).
  { simpl. split; [lia |]. split; [| intros spec []].
    split; [done | intros [H _]; discriminate H]. }
  destruct (get_vm_floppy_device (Some vm)) as [f |] eqn:Hdev.
  - simpl. split; [lia |]. split.
    + split; [eauto | discriminate].
    + intros spec [<- | []]. split; [done |]. exists f. repeat split.
      apply first_floppy_some in Hdev. destruct Hdev as (before & after & -> & _).
      apply in_or_app. right. by left.
  - simpl. split; [lia |]. split; [| intros spec []].
    split; [done |]. intros [_ [f Hf]]. discriminate Hf.
Qed.

(** X4. The present pass emits at most two operations and never a [remove].
    An [add] is only emitted when the VM has no floppy drive; an [edit] only
    when it has one, and then it carries the [key] and [controllerKey] of
    that drive.  Every floppy drive the pass writes allows guest control. *)
Theorem present_pass_adds_or_edits (params : Params) (vm_obj : option VirtualMachine) :
  (length (emitted params vm_obj) <= 2)%nat /\
  (forall spec,
     In spec (emitted params vm_obj) ->
     (operation spec = add /\ get_vm_floppy_device vm_obj = None \/
      operation spec = edit /\
      exists f0 f, get_vm_floppy_device vm_obj = Some f0 /\
                   device spec = Floppy f /\
                   key f = key f0 /\ controllerKey f = controllerKey f0) /\
     (forall f, device spec = Floppy f -> allowGuestControl (connectable f) = true)).
Proof.
  assert (Hnew : forall sio_device floppy_spec,
             new_floppy_spec params vm_obj sio_device = Built floppy_spec ->
             operation floppy_spec = add /\
             forall f, device floppy_spec = Floppy f ->
                       allowGuestControl (connectable f) = true).
  { intros sio_device floppy_spec Hspec.
    destruct (new_floppy_spec_shape _ _ _ _ Hspec) as (floppy & -> & _ & _ & Hagc & _).
    split; [done |]. by intros f [= <-]. }
  unfold emitted, configure_floppy.
  destruct (on_template vm_obj); [simpl; split; [lia | intros spec []] |].
  destruct (get_vm_floppy_device vm_obj) as [f0 |] eqn:Hdev.
  - destruct vm_obj as [vm |]; [| simpl; split; [lia | intros spec []]].
    destruct (negb _); [| simpl; split; [lia | intros spec []]].
    destruct (edited_floppy params (Some vm) f0) as [edited |] eqn:Hed;
      simpl; (split; [lia |]); [| intros spec []].
    destruct (edited_floppy_key _ _ _ _ Hed) as (Hkey & Hckey & Hagc & _).
    intros spec [<- | []]. split.
    + right. split; [done |]. by exists f0, edited.
    + by intros f [= <-].
  - destruct (get_vm_sio_device vm_obj) as [c |].
    + destruct (new_floppy_spec params vm_obj (inr c)) as [floppy_spec |] eqn:Hspec;
        simpl; (split; [lia |]); [| intros spec []].
      destruct (Hnew _ _ Hspec) as [Hop Hagc].
      intros spec [<- | []]. split; [by left | exact Hagc].
    + destruct (new_floppy_spec params vm_obj (inl create_sio_controller))
        as [floppy_spec |] eqn:Hspec; simpl; (split; [lia |]).
      * destruct (Hnew _ _ Hspec) as [Hop Hagc].
        intros spec [<- | [<- | []]].
        -- split; [by left | discriminate].
        -- split; [by left | exact Hagc].
      * intros spec [<- | []]. split; [by left | discriminate].
Qed.

(** X5. On a VM that is not a template and has an SIO controller but no
    floppy drive, for a drive that can be built (an image path is given when
    the type is ['flp']), the present pass reuses the controller: it returns
    having emitted the [add] of the floppy drive alone, attached to the
    controller found. *)
Theorem existing_controller_is_reused (params : Params) (vm : VirtualMachine)
    (sio_device : VirtualSIOController) :
  template vm = false ->
  get_vm_floppy_device (Some vm) = None ->
  get_vm_sio_device (Some vm) = Some sio_device ->
  buildable params ->
  exists floppy,
    emitted params (Some vm) = [ {| operation := add; device := Floppy floppy |} ] /\
    raised (configure_floppy params (Some vm) init) = None /\
    controllerKey floppy = sio_key sio_device /\
    key floppy = -1.
Proof.
  intros Htpl Hdev Hsio Hb.
  destruct (new_floppy_spec_built params (Some vm) (inr sio_device) Hb)
    as [floppy_spec Hspec].
  destruct (new_floppy_spec_shape _ _ _ _ Hspec) as (floppy & -> & Hkey & Hckey & _).
  exists floppy. unfold emitted, configure_floppy.
  simpl on_template. by rewrite Htpl, Hdev, Hsio, Hspec.
Qed.

Lemma existing_controller_is_reused_witness :
  let vm := {| template := false; powerState := poweredOn;
               hardware_device := [SIOController {| sio_key := 400; busNumber := 0 |}] |} in
  exists floppy,
    emitted present_flp (Some vm) = [ {| operation := add; device := Floppy floppy |} ] /\
    raised (configure_floppy present_flp (Some vm) init) = None /\
    controllerKey floppy = sio_key {| sio_key := 400; busNumber := 0 |} /\
    key floppy = -1.
Proof.
  apply (existing_controller_is_reused present_flp
           {| template := false; powerState := poweredOn;
              hardware_device := [SIOController {| sio_key := 400; busNumber := 0 |}] |}
           {| sio_key := 400; busNumber := 0 |}); try reflexivity.
  intros _. discriminate.
Defined.

(** ** The drive that is written and the equivalence check *)

(** X6. A drive created for one of the three types passes the equivalence
    check for that type and image path, on the same VM, when the VM is not
    powered on, or [type] is ['none'], or [start_connected] is set; and a
    drive is created whenever an image path comes with ['flp']. *)
Theorem created_floppy_passes_check (params : Params) (vm : VirtualMachine)
    (sio_device : VirtualDeviceSpec + VirtualSIOController) :
  valid_type params ->
  (param_type params = Some "none" \/ param_start_connected params = true \/
   powerState vm <> poweredOn) ->
  (forall floppy,
     new_floppy_spec params (Some vm) sio_device =
       Built {| operation := add; device := Floppy floppy |} ->
     is_equal_floppy vm floppy (param_type params) (param_image_file params) = true) /\
  (buildable params ->
   exists floppy,
     new_floppy_spec params (Some vm) sio_device =
       Built {| operation := add; device := Floppy floppy |}).
Proof.
  intros Hty Hsettles. split.
  - intros floppy. by apply created_floppy_is_equal.
  - intros Hb.
    destruct (new_floppy_spec_built params (Some vm) sio_device Hb) as [spec Hspec].
    destruct (new_floppy_spec_shape _ _ _ _ Hspec) as (floppy & -> & _).
    eauto.
Qed.

Lemma created_floppy_passes_check_witness :
  exists floppy,
    new_floppy_spec present_flp (Some vm_bare) (inl create_sio_controller) =
      Built {| operation := add; device := Floppy floppy |} /\
    is_equal_floppy vm_bare floppy
      (param_type present_flp) (param_image_file present_flp) = true.
Proof.
  destruct (created_floppy_passes_check present_flp vm_bare (inl create_sio_controller))
    as [Hequal Hbuilt].
  - right; right; reflexivity.
  - right; left; reflexivity.
  - destruct Hbuilt as [floppy Hfloppy]; [intros _; discriminate |].
    exists floppy. split; [exact Hfloppy | by apply Hequal].
Defined.

(** X7. A drive edited for one of the three types passes the equivalence
    check for that type and image path, whatever it was before, when [type]
    is ['none'] or [start_connected] is set; and the edit writes a drive
    whenever an image path comes with ['flp']. *)
Theorem edited_floppy_passes_check (params : Params) (vm : VirtualMachine)
    (floppy_device : VirtualFloppy) :
  valid_type params ->
  (param_type params = Some "none" \/ param_start_connected params = true) ->
  (forall edited,
     edited_floppy params (Some vm) floppy_device = Built edited ->
     is_equal_floppy vm edited (param_type params) (param_image_file params) = true) /\
  (buildable params ->
   exists edited, edited_floppy params (Some vm) floppy_device = Built edited).
Proof.
  intros Hty Hsc. split.
  - intros edited. by apply edited_floppy_is_equal.
  - apply edited_floppy_built.
Qed.

Lemma edited_floppy_passes_check_witness :
  exists edited,
    edited_floppy present_flp (Some (vm_with_floppy poweredOn)) floppy_disconnected =
      Built edited /\
    is_equal_floppy (vm_with_floppy poweredOn) edited
      (param_type present_flp) (param_image_file present_flp) = true.
Proof.
  destruct (edited_floppy_passes_check present_flp (vm_with_floppy poweredOn)
              floppy_disconnected) as [Hequal Hbuilt].
  - right; right; reflexivity.
  - right; reflexivity.
  - destruct Hbuilt as [edited Hedited]; [intros _; discriminate |].
    exists edited. split; [exact Hedited | by apply Hequal].
Defined.

(** X8. With [type] ['client'] or ['flp'] and [start_connected] false, the
    drive an edit writes never passes the equivalence check for the same
    parameters, on any VM in any power state: the check wants
    [startConnected], the edit has cleared it.  (The edit writes a drive
    whenever an image path comes with ['flp'].) *)
Theorem edit_without_start_connected_fails_check (params : Params)
    (vm_obj : option VirtualMachine) (vm' : VirtualMachine)
    (floppy_device : VirtualFloppy) :
  param_type params = Some "client" \/ param_type params = Some "flp" ->
  param_start_connected params = false ->
  (forall edited,
     edited_floppy params vm_obj floppy_device = Built edited ->
     startConnected (connectable edited) = false /\
     is_equal_floppy vm' edited (param_type params) (param_image_file params) = false) /\
  (buildable params ->
   exists edited, edited_floppy params vm_obj floppy_device = Built edited).
Proof.
  intros Hty Hsc. split; [| apply edited_floppy_built].
  intros edited Hed.
  destruct (edited_floppy_key _ _ _ _ Hed) as (_ & _ & _ & Hstart).
  rewrite Hsc, andb_false_r in Hstart. split; [exact Hstart |].
  unfold is_equal_floppy. rewrite Hstart.
  destruct Hty as [Hty | Hty]; rewrite Hty; simpl.
  - by rewrite andb_false_r.
  - by rewrite andb_false_r.
Qed.

Lemma edit_without_start_connected_fails_check_witness :
  let params := with_start_connected false present_flp in
  exists edited,
    edited_floppy params (Some (vm_with_floppy poweredOff)) floppy_disconnected =
      Built edited /\
    startConnected (connectable edited) = false /\
    is_equal_floppy (vm_with_floppy poweredOff) edited
      (param_type params) (param_image_file params) = false.
Proof.
  intros params.
  destruct (edit_without_start_connected_fails_check params
              (Some (vm_with_floppy poweredOff)) (vm_with_floppy poweredOff)
              floppy_disconnected) as [Hfails Hbuilt].
  - right; reflexivity.
  - reflexivity.
  - destruct Hbuilt as [edited Hedited]; [intros _; discriminate |].
    exists edited. split; [exact Hedited | by apply Hfails].
Defined.

(** ** The poll loop *)

Lemma wait_for_task_sound fuel task now n :
  wait_for_task fuel task now = Some n ->
  (now <= n <= now + fuel)%nat /\
  terminal (state (task n)) = true /\
  forall m, (now <= m < n)%nat -> terminal (state (task m)) = false.
Proof.
  revert now. induction fuel as [| fuel IH]; intros now; simpl.
  - destruct (terminal (state (task now))) eqn:Hnow; [| discriminate].
    intros [= <-]. split; [lia |]. split; [done |]. intros m Hm. lia.
  - destruct (terminal (state (task now))) eqn:Hnow.
    + intros [= <-]. split; [lia |]. split; [done |]. intros m Hm. lia.
    + intros Hwait. destruct (IH _ Hwait) as (Hrange & Hterm & Hbefore).
      split; [lia |]. split; [done |].
      intros m Hm. destruct (decide (m = now)) as [-> | Hne]; [done |].
      apply Hbefore. lia.
Qed.

Lemma wait_for_task_complete fuel task now n :
  (now <= n <= now + fuel)%nat ->
  terminal (state (task n)) = true ->
  (forall m, (now <= m < n)%nat -> terminal (state (task m)) = false) ->
  wait_for_task fuel task now = Some n.
Proof.
  revert now. induction fuel as [| fuel IH]; intros now Hrange Hterm Hbefore.
  - assert (n = now) as -> by lia. simpl. by rewrite Hterm.
  - simpl. destruct (decide (n = now)) as [-> | Hne].
    + by rewrite Hterm.
    + rewrite (Hbefore now) by lia. apply IH; [lia | done |].
      intros m Hm. apply Hbefore. lia.
Qed.

(** X9. [wait_for_task] leaves the loop at the first read whose state is
    ['error'] or ['success']: with [fuel] sleeps allowed from time [now], it
    stops at [n] exactly when [n] is within reach, the state read at [n] is
    terminal, and no earlier read was. *)
Theorem wait_for_task_first_terminal (fuel : nat) (task : Task) (now n : nat) :
  wait_for_task fuel task now = Some n <->
  (now <= n <= now + fuel)%nat /\
  terminal (state (task n)) = true /\
  forall m, (now <= m < n)%nat -> terminal (state (task m)) = false.
Proof.
  split; [apply wait_for_task_sound |].
  intros (Hrange & Hterm & Hbefore). by apply wait_for_task_complete.
Qed.

Lemma wait_for_task_forever fuel task now :
  (forall n, terminal (state (task n)) = false) ->
  wait_for_task fuel task now = None.
Proof.
  intros Hnever. destruct (wait_for_task fuel task now) as [n |] eqn:Hwait; [| done].
  apply wait_for_task_sound in Hwait. destruct Hwait as (_ & Hterm & _).
  by rewrite Hnever in Hterm.
Qed.

(** X10. There is no time-out: when the server accepts the change-set and
    the task never reaches ['error'] or ['success'], the module is still
    polling after any number of sleeps, the change-set having been sent. *)
Theorem unfinished_task_never_returns (srv : vCenter) (fuel : nat) (args : Args)
    (params : Params) (vm : VirtualMachine) (self' : self_t) (task : Task)
    (settled : VirtualMachine) :
  module_params args = Some params ->
  get_vm srv params = Some vm ->
  reconcile params vm init = Return self' ->
  change_detected self' = true ->
  ReconfigVM_Task srv vm (configspec self') = Submitted task settled ->
  (forall n, terminal (state (task n)) = false) ->
  main srv fuel args = (hangs, [configspec self']).
Proof.
  intros Hargs Hvm Hrec Hcd Hsrv Hnever.
  unfold main. rewrite Hargs, Hvm. unfold apply_floppy_op. rewrite Hrec.
  unfold send. rewrite Hcd, Hsrv. by rewrite wait_for_task_forever.
Qed.

Lemma unfinished_task_never_returns_witness :
  let srv := {| get_vm := fun _ => Some vm_bare;
                ReconfigVM_Task := fun vm _ =>
                  Submitted (fun _ => {| state := running; error_msg := "" |}) vm |} in
  main srv 3600 args_none =
    (hangs, [configspec (after (configure_floppy present_none (Some vm_bare) init))]).
Proof.
  apply (unfinished_task_never_returns
           {| get_vm := fun _ => Some vm_bare;
              ReconfigVM_Task := fun vm _ =>
                Submitted (fun _ => {| state := running; error_msg := "" |}) vm |}
           3600 args_none present_none vm_bare
           (after (configure_floppy present_none (Some vm_bare) init))
           (fun _ => {| state := running; error_msg := "" |}) vm_bare);
    reflexivity.
Defined.

(** ** Validation *)

(** X11. Under [state: present], a [type] that is [None] or the empty string
    makes [apply_floppy_op] leave through [fail_json] with ['type is
    mandatory'], whatever the VM and the helper, and nothing is sent. *)
Theorem missing_type_is_mandatory (srv : vCenter) (fuel : nat) (params : Params)
    (self : self_t) (vm : VirtualMachine) :
  param_state params = "present" ->
  param_type params = None \/ param_type params = Some "" ->
  let r := apply_floppy_op srv fuel params self vm in
  result r = FailJson {[ "msg" := VStr "type is mandatory" ]} /\
  submitted r = [] /\
  vm_after r = vm.
Proof.
  intros Hs Hty r. subst r. unfold apply_floppy_op, reconcile. rewrite Hs.
  by destruct Hty as [-> | ->].
Qed.

Lemma missing_type_is_mandatory_witness :
  let r := apply_floppy_op (Server.carries_out 0 vm_bare) 0
             (params_of "present" (Some "") None false) init vm_template in
  result r = FailJson {[ "msg" := VStr "type is mandatory" ]} /\
  submitted r = [] /\
  vm_after r = vm_template.
Proof.
  apply (missing_type_is_mandatory (Server.carries_out 0 vm_bare) 0
           (params_of "present" (Some "") None false) init vm_template).
  - reflexivity.
  - right; reflexivity.
Defined.

(** X12. Under [state: present], a non-empty [type] other than ['none'],
    ['client'] and ['flp'] makes [apply_floppy_op] leave through [fail_json]
    with the message that lists the permitted values, and nothing is sent.
    That holds for ['image_file'] too, which the message lists as
    permitted. *)
Theorem unknown_type_is_rejected (srv : vCenter) (fuel : nat) (params : Params)
    (self : self_t) (vm : VirtualMachine) (t : string) :
  param_state params = "present" ->
  param_type params = Some t ->
  t <> "" -> t <> "none" -> t <> "client" -> t <> "flp" ->
  let r := apply_floppy_op srv fuel params self vm in
  result r =
    FailJson {[ "msg" :=
      VStr "type is not valid. Permitted values: none, client, image_file" ]} /\
  submitted r = [] /\
  vm_after r = vm.
Proof.
  intros Hs Hty Hne Hnone Hclient Hflp r. subst r.
  unfold apply_floppy_op, reconcile. rewrite Hs, Hty. simpl.
  rewrite (bool_decide_eq_false_2 (t = "")) by done. simpl.
  rewrite !py_eq_other by congruence. by simpl.
Qed.

Lemma unknown_type_is_rejected_witness :
  let r := apply_floppy_op (Server.carries_out 0 vm_bare) 0
             (params_of "present" (Some "image_file") (Some "[datastore1] a.flp") true)
             init vm_bare in
  result r =
    FailJson {[ "msg" :=
      VStr "type is not valid. Permitted values: none, client, image_file" ]} /\
  submitted r = [] /\
  vm_after r = vm_bare.
Proof.
  apply (unknown_type_is_rejected (Server.carries_out 0 vm_bare) 0
           (params_of "present" (Some "image_file") (Some "[datastore1] a.flp") true)
           init vm_bare "image_file"); (reflexivity || discriminate).
Defined.

Lemma unknown_state_raises srv fuel params self vm :
  param_state params <> "absent" ->
  param_state params <> "present" ->
  result (apply_floppy_op srv fuel params self vm) = Raise AssertionError.
Proof.
  intros Ha Hp. unfold apply_floppy_op, reconcile.
  by rewrite !bool_decide_eq_false_2.
Qed.

(** The only exception a present pass dies of is the [TypeError] of the
    image backing. *)
Lemma configure_floppy_raises params vm_obj self e :
  raised (configure_floppy params vm_obj self) = Some e -> e = TypeError.
Proof.
  unfold configure_floppy.
  destruct (on_template vm_obj); [discriminate |].
  destruct (get_vm_floppy_device vm_obj) as [floppy_device |].
  - destruct vm_obj as [vm |]; [| discriminate].
    destruct (negb _); [| discriminate].
    destruct (edited_floppy params (Some vm) floppy_device); simpl; congruence.
  - destruct (get_vm_sio_device vm_obj) as [sio_device |].
    + destruct (new_floppy_spec params vm_obj (inr sio_device)); simpl; congruence.
    + destruct (new_floppy_spec params vm_obj (inl create_sio_controller)); simpl;
        congruence.
Qed.

Lemma reconcile_never_sleeps params vm self : reconcile params vm self <> Sleeping.
Proof.
  unfold reconcile.
  repeat (match goal with |- context [if ?b then _ else _] => destruct b end);
    try discriminate.
  destruct (raised _); discriminate.
Qed.

Lemma send_never_asserts srv fuel vm self :
  result (send srv fuel vm self) <> Raise AssertionError.
Proof.
  unfold send. destruct (change_detected self); [| discriminate].
  destruct (ReconfigVM_Task srv vm (configspec self)); try discriminate.
  destruct (wait_for_task fuel task 0); [| discriminate].
  simpl. destruct (state (task n)); discriminate.
Qed.

Lemma apply_asserts_on_unknown_state srv fuel params self vm :
  result (apply_floppy_op srv fuel params self vm) = Raise AssertionError ->
  param_state params <> "absent" /\ param_state params <> "present".
Proof.
  unfold apply_floppy_op, reconcile.
  destruct (bool_decide (param_state params = "absent")) eqn:Ha.
  { intros H. by apply send_never_asserts in H. }
  destruct (bool_decide (param_state params = "present")) eqn:Hp.
  { destruct (negb (truthy _)); [discriminate |].
    destruct (negb (py_in _ _)); [discriminate |].
    destruct (_ && _); [discriminate |].
    destruct (raised _) as [e |] eqn:Hraised.
    - apply configure_floppy_raises in Hraised. subst e. discriminate.
    - intros H. by apply send_never_asserts in H. }
  intros _. apply bool_decide_eq_false in Ha, Hp. by split.
Qed.

(** X13. The branch of [apply_floppy_op] that raises [AssertionError] is out
    of reach of [main]: the arguments it accepts have [state] ['present'] or
    ['absent'], so no run of the module ends in that exception. *)
Theorem main_never_asserts (srv : vCenter) (fuel : nat) (args : Args) :
  fst (main srv fuel args) <> traceback AssertionError.
Proof.
  unfold main.
  destruct (module_params args) as [params |] eqn:Hargs; [| discriminate].
  destruct (get_vm srv params) as [vm |]; [| discriminate].
  cbn [fst].
  destruct (result (apply_floppy_op srv fuel params init vm)) as [d | kw | e |] eqn:Hr;
    try discriminate.
  - by destruct (failed_flag _).
  - intros [= ->]. apply apply_asserts_on_unknown_state in Hr.
    destruct (module_params_state _ _ Hargs); tauto.
Qed.

(** ** What is sent, and what is reported *)

Lemma reconcile_returns params vm self self' :
  reconcile params vm self = Return self' ->
  let fresh := {| configspec := {| deviceChange := [] |};
                  change_detected := change_detected self |} in
  param_state params = "absent" /\ self' = remove_floppy (Some vm) fresh \/
  param_state params = "present" /\ valid_type params /\
    raised (configure_floppy params (Some vm) fresh) = None /\
    self' = after (configure_floppy params (Some vm) fresh).
Proof.
  unfold reconcile.
  destruct (bool_decide (param_state params = "absent")) eqn:Ha.
  { apply bool_decide_eq_true in Ha. intros [= <-]. by left. }
  destruct (bool_decide (param_state params = "present")) eqn:Hp; [| discriminate].
  apply bool_decide_eq_true in Hp.
  destruct (negb (truthy _)); [discriminate |].
  destruct (negb (py_in _ _)) eqn:Hin; [discriminate |].
  destruct (_ && _); [discriminate |].
  destruct (raised _) eqn:Hraised; [discriminate |].
  intros [= <-]. right. split; [done |]. split; [| done].
  apply negb_false_iff in Hin. unfold py_in in Hin. simpl in Hin.
  unfold valid_type.
  destruct (py_eq (param_type params) "none") eqn:H1;
    [left; by apply py_eq_true |].
  destruct (py_eq (param_type params) "client") eqn:H2;
    [right; left; by apply py_eq_true |].
  destruct (py_eq (param_type params) "flp") eqn:H3;
    [right; right; by apply py_eq_true | discriminate].
Qed.

Lemma reconcile_fails params vm self kwargs :
  reconcile params vm self = FailJson kwargs ->
  exists msg, kwargs = {[ "msg" := VStr msg ]}.
Proof.
  unfold reconcile, fail_msg.
  repeat (match goal with |- context [if ?b then _ else _] => destruct b end);
    try discriminate; try (intros [= <-]; eauto).
  destruct (raised _); discriminate.
Qed.

Lemma send_submitted srv fuel vm self :
  submitted (send srv fuel vm self) =
  if change_detected self then [configspec self] else [].
Proof.
  unfold send. destruct (change_detected self); [| done].
  destruct (ReconfigVM_Task srv vm (configspec self)); try done.
  by destruct (wait_for_task fuel task 0).
Qed.

(** X14. From a fresh helper, [apply_floppy_op] calls [ReconfigVM_Task] at
    most once, never with an empty change-set, and what it sends is what
    the pass of the requested state emitted: the removal for ['absent'],
    the additions or the edit for ['present']. *)
Theorem sent_change_set_is_the_pass (srv : vCenter) (fuel : nat) (params : Params)
    (vm : VirtualMachine) (spec : ConfigSpec) :
  In spec (submitted (apply_floppy_op srv fuel params init vm)) ->
  submitted (apply_floppy_op srv fuel params init vm) = [spec] /\
  deviceChange spec <> [] /\
  (param_state params = "absent" /\ deviceChange spec = removed (Some vm) \/
   param_state params = "present" /\ deviceChange spec = emitted params (Some vm)).
Proof.
  unfold apply_floppy_op.
  destruct (reconcile params vm init) as [self' | kw | e |] eqn:Hrec;
    try (intros []).
  rewrite send_submitted.
  destruct (change_detected self') eqn:Hcd; [| intros []].
  intros [<- | []]. split; [done |]. split.
  - by apply (reconcile_detects _ _ _ Hrec).
  - destruct (reconcile_returns _ _ _ _ Hrec) as [[Hs ->] | (Hs & _ & _ & ->)];
      [by left | by right].
Qed.

Lemma sent_change_set_is_the_pass_witness :
  let params := params_of "absent" None None false in
  let vm := vm_with_floppy poweredOn in
  let spec := {| deviceChange :=
                   [ {| operation := remove; device := Floppy floppy_disconnected |} ] |} in
  submitted (apply_floppy_op (Server.carries_out 0 vm) 0 params init vm) = [spec] /\
  deviceChange spec <> [] /\
  (param_state params = "absent" /\ deviceChange spec = removed (Some vm) \/
   param_state params = "present" /\ deviceChange spec = emitted params (Some vm)).
Proof.
  apply (sent_change_set_is_the_pass (Server.carries_out 0 (vm_with_floppy poweredOn)) 0
           (params_of "absent" None None false) (vm_with_floppy poweredOn)).
  left. reflexivity.
Defined.

(** X15. Whatever the helper, the VM and the server, [apply_floppy_op]
    returns a dictionary with [changed: True] exactly when it returns at all
    and has called [ReconfigVM_Task]: a run that sent nothing never reports
    a change, and a run that sent something and returned always does. *)
Theorem changed_iff_sent (srv : vCenter) (fuel : nat) (params : Params)
    (self : self_t) (vm : VirtualMachine) :
  let r := apply_floppy_op srv fuel params self vm in
  flag "changed" r = Some (VBool true) <->
  (exists d, result r = Return d) /\ submitted r <> [].
Proof.
  intros r. subst r. unfold apply_floppy_op, flag.
  destruct (reconcile params vm self) as [self' | kw | e |] eqn:Hrec; simpl.
  - unfold send. destruct (change_detected self').
    + destruct (ReconfigVM_Task srv vm (configspec self')) as [task settled | msg | name];
        simpl.
      * destruct (wait_for_task fuel task 0) as [now |]; simpl.
        -- destruct (state (task now)); simpl;
             (split; [intros _; split; [eauto | discriminate] | reflexivity]).
        -- split; [discriminate | intros [[d Hd] _]; discriminate Hd].
      * split; [discriminate | intros [[d Hd] _]; discriminate Hd].
      * split; [discriminate | intros [[d Hd] _]; discriminate Hd].
    + simpl. split; [discriminate | intros [_ H]; by destruct H].
  - destruct (reconcile_fails _ _ _ _ Hrec) as [msg ->].
    split; [discriminate | intros [[d Hd] _]; discriminate Hd].
  - split; [discriminate | intros [[d Hd] _]; discriminate Hd].
  - split; [discriminate | intros [[d Hd] _]; discriminate Hd].
Qed.

Lemma reconcile_present_any params vm self :
  param_state params = "present" ->
  valid_type params ->
  let fresh := {| configspec := {| deviceChange := [] |};
                  change_detected := change_detected self |} in
  reconcile params vm self =
    match raised (configure_floppy params (Some vm) fresh) with
    | None => Return (after (configure_floppy params (Some vm) fresh))
    | Some e => Raise e
    end.
Proof.
  intros Hs Hty. unfold reconcile. rewrite Hs.
  destruct Hty as [Hty | [Hty | Hty]]; by rewrite Hty.
Qed.

(** X16. [apply_floppy_op] renews [configspec] but not [change_detected]:
    run on a helper whose flag is already set, it calls [ReconfigVM_Task]
    even when the VM already passes the equivalence check, and the
    change-set it sends is empty. *)
Theorem set_flag_sends_empty_change_set (srv : vCenter) (fuel : nat) (params : Params)
    (self : self_t) (vm : VirtualMachine) :
  change_detected self = true ->
  param_state params = "present" ->
  equivalent params vm ->
  submitted (apply_floppy_op srv fuel params self vm) = [ {| deviceChange := [] |} ].
Proof.
  intros Hcd Hs (floppy_device & Hdev & Heq).
  assert (Hty : valid_type params).
  { unfold valid_type. unfold is_equal_floppy in Heq.
    destruct (py_eq (param_type params) "none") eqn:H1;
      [left; by apply py_eq_true |].
    destruct (py_eq (param_type params) "client") eqn:H2;
      [right; left; by apply py_eq_true |].
    destruct (py_eq (param_type params) "flp") eqn:H3;
      [right; right; by apply py_eq_true | discriminate]. }
  unfold apply_floppy_op. rewrite (reconcile_present_any _ _ _ Hs Hty).
  rewrite (configure_floppy_equivalent params vm floppy_device _ Hdev Heq).
  cbn [raised after finished].
  rewrite send_submitted. simpl. by rewrite Hcd.
Qed.

Lemma set_flag_sends_empty_change_set_witness :
  submitted (apply_floppy_op (Server.carries_out 0 (vm_with_floppy poweredOn)) 0
               present_none
               {| configspec := {| deviceChange := [] |}; change_detected := true |}
               (vm_with_floppy poweredOn))
  = [ {| deviceChange := [] |} ].
Proof.
  apply (set_flag_sends_empty_change_set (Server.carries_out 0 (vm_with_floppy poweredOn))
           0 present_none
           {| configspec := {| deviceChange := [] |}; change_detected := true |}
           (vm_with_floppy poweredOn)).
  - reflexivity.
  - reflexivity.
  - exists floppy_disconnected. split; reflexivity.
Defined.

(** ** How main ends *)

(** X17. When the arguments are accepted and the VM is not found, [main]
    leaves through [fail_json] before any pass runs and without a call to
    [ReconfigVM_Task]; the message names the VM by [uuid] when that is given
    and not empty, and by [name] otherwise.  As [argument_spec] has no [uuid]
    key, accepted arguments carry none, and the message names the VM by
    [name]. *)
Theorem missing_vm_is_reported (srv : vCenter) (fuel : nat) (args : Args)
    (params : Params) :
  module_params args = Some params ->
  get_vm srv params = None ->
  exists who,
    main srv fuel args =
      (fail_json {[ "msg" :=
         VStr ("Unable to manage floppy disk for non-existing VM " ++ who) ]}, []) /\
    (forall u, param_uuid params = Some u -> u <> "" -> who = u) /\
    (forall n, param_uuid params = None \/ param_uuid params = Some "" ->
               param_name params = Some n -> who = n) /\
    param_uuid params = None /\
    param_name params = Some who.
Proof.
  intros Hargs Hvm. exists (uuid_or_name params). split.
  - unfold main. by rewrite Hargs, Hvm.
  - unfold uuid_or_name. split; [| split; [| split]].
    + intros u Hu Hne. rewrite Hu. simpl.
      by rewrite (bool_decide_eq_false_2 (u = "")).
    + intros n [Hu | Hu] Hn; by rewrite Hu, Hn.
    + by apply (module_params_uuid args).
    + rewrite (module_params_uuid args params Hargs). simpl.
      destruct (module_params_name args params Hargs) as [n ->]. done.
Qed.

Lemma missing_vm_is_reported_witness :
  exists who,
    main Server.without_vm 0 args_default =
      (fail_json {[ "msg" :=
         VStr ("Unable to manage floppy disk for non-existing VM " ++ who) ]}, []) /\
    (forall u, param_uuid (params_of "present" None None false) = Some u ->
               u <> "" -> who = u) /\
    (forall n, param_uuid (params_of "present" None None false) = None \/
               param_uuid (params_of "present" None None false) = Some "" ->
               param_name (params_of "present" None None false) = Some n -> who = n) /\
    param_uuid (params_of "present" None None false) = None /\
    param_name (params_of "present" None None false) = Some who.
Proof.
  apply (missing_vm_is_reported Server.without_vm 0 args_default
           (params_of "present" None None false)); reflexivity.
Defined.

(** The failed task of the lemma [failed_task_is_reported], on a server
    whose tasks all end in ['error']. *)
Lemma failed_task_is_reported_witness :
  let out := main (Server.failing "disk is locked" vm_bare) 0 args_none in
  reported (fst out) !! "changed" = Some (VBool true) /\
  reported (fst out) !! "failed" = Some (VBool true) /\
  reported (fst out) !! "msg" = Some (VStr "disk is locked").
Proof.
  apply (failed_task_is_reported (Server.failing "disk is locked" vm_bare) 0 args_none
           present_none vm_bare (after (configure_floppy present_none (Some vm_bare) init))
           (fun _ => {| state := error; error_msg := "disk is locked" |}) vm_bare 0%nat
           "disk is locked"); reflexivity.
Defined.

(** X19. When the server accepts the change-set and the first terminal
    state read from the task is ['success'], [main] leaves through
    [exit_json] with [changed: True], [failed: False] and the facts of the VM
    gathered after the task, having sent the change-set once. *)
Theorem successful_task_is_reported (srv : vCenter) (fuel : nat) (args : Args)
    (params : Params) (vm : VirtualMachine) (self' : self_t) (task : Task)
    (settled : VirtualMachine) (now : nat) :
  module_params args = Some params ->
  get_vm srv params = Some vm ->
  reconcile params vm init = Return self' ->
  change_detected self' = true ->
  ReconfigVM_Task srv vm (configspec self') = Submitted task settled ->
  wait_for_task fuel task 0 = Some now ->
  state (task now) = success ->
  main srv fuel args =
    (exit_json {[ "changed" := VBool true; "failed" := VBool false;
                  "instance" := gather_vm_facts settled ]},
     [configspec self']).
Proof.
  intros Hargs Hvm Hrec Hcd Hsrv Hwait Hstate.
  unfold main. rewrite Hargs, Hvm. unfold apply_floppy_op. rewrite Hrec.
  unfold send. rewrite Hcd, Hsrv, Hwait. simpl. by rewrite Hstate.
Qed.

Lemma successful_task_is_reported_witness :
  main (Server.carries_out 2 vm_bare) 5 args_none =
    (exit_json {[ "changed" := VBool true; "failed" := VBool false;
                  "instance" :=
                    gather_vm_facts
                      (Server.reconfigure vm_bare
                         (configspec (after (configure_floppy present_none (Some vm_bare) init)))) ]},
     [configspec (after (configure_floppy present_none (Some vm_bare) init))]).
Proof.
  apply (successful_task_is_reported (Server.carries_out 2 vm_bare) 5 args_none
           present_none vm_bare (after (configure_floppy present_none (Some vm_bare) init))
           (Server.task_done_after 2)
           (Server.reconfigure vm_bare
              (configspec (after (configure_floppy present_none (Some vm_bare) init))))
           2%nat); reflexivity.
Defined.

Lemma apply_returns srv fuel params self vm d :
  result (apply_floppy_op srv fuel params self vm) = Return d ->
  (exists vm', d = unchanged vm') \/
  (exists settled, d = changed_to settled) \/
  (exists msg, d = {[ "changed" := VBool true; "failed" := VBool true;
                      "msg" := VStr msg ]}).
Proof.
  unfold apply_floppy_op.
  destruct (reconcile params vm self) as [self' | kw | e |]; try discriminate.
  unfold send. destruct (change_detected self').
  - destruct (ReconfigVM_Task srv vm (configspec self')) as [task settled | msg | name];
      try discriminate.
    destruct (wait_for_task fuel task 0) as [now |]; [| discriminate].
    simpl. destruct (state (task now)); intros [= <-]; eauto.
  - intros [= <-]. eauto.
Qed.

Lemma apply_fails srv fuel params self vm kwargs :
  result (apply_floppy_op srv fuel params self vm) = FailJson kwargs ->
  exists msg, kwargs = {[ "msg" := VStr msg ]}.
Proof.
  unfold apply_floppy_op.
  destruct (reconcile params vm self) as [self' | kw | e |] eqn:Hrec; try discriminate.
  - unfold send. destruct (change_detected self'); [| discriminate].
    destruct (ReconfigVM_Task srv vm (configspec self')) as [task settled | msg | name];
      try discriminate.
    + destruct (wait_for_task fuel task 0) as [now |]; [| discriminate].
      simpl. destruct (state (task now)); discriminate.
    + unfold fail_msg. intros [= <-]. eauto.
  - simpl. intros [= <-]. by apply (reconcile_fails _ _ _ _ Hrec).
Qed.

(** X20. Whatever the server and the arguments: when [main] leaves through
    [exit_json], the result has [failed: False], a [changed] flag and the
    gathered facts; when it leaves through [fail_json], the result carries a
    message. *)
Theorem main_exit_discipline (srv : vCenter) (fuel : nat) (args : Args) :
  match fst (main srv fuel args) with
  | exit_json kwargs =>
      kwargs !! "failed" = Some (VBool false) /\
      (exists b, kwargs !! "changed" = Some (VBool b)) /\
      (exists vm, kwargs !! "instance" = Some (VFacts vm))
  | fail_json kwargs => exists msg, kwargs !! "msg" = Some (VStr msg)
  | _ => True
  end.
Proof.
  unfold main.
  destruct (module_params args) as [params |]; [| done].
  destruct (get_vm srv params) as [vm |]; [| simpl; eauto].
  cbn [fst].
  destruct (result (apply_floppy_op srv fuel params init vm)) as [d | kw | e |] eqn:Hr;
    try done.
  - destruct (apply_returns _ _ _ _ _ _ Hr) as [[vm' ->] | [[settled ->] | [msg ->]]].
    + change (unchanged vm' !! "failed" = Some (VBool false) /\
              (exists b, unchanged vm' !! "changed" = Some (VBool b)) /\
              (exists vm0, unchanged vm' !! "instance" = Some (VFacts vm0))).
      split; [reflexivity |]. split; [by exists false | by exists vm'].
    + change (changed_to settled !! "failed" = Some (VBool false) /\
              (exists b, changed_to settled !! "changed" = Some (VBool b)) /\
              (exists vm0, changed_to settled !! "instance" = Some (VFacts vm0))).
      split; [reflexivity |]. split; [by exists true | by exists settled].
    + by exists msg.
  - destruct (apply_fails _ _ _ _ _ _ Hr) as [msg ->]. by exists msg.
Qed.

(** X21. A fault other than [RestrictedVersion] raised by [ReconfigVM_Task]
    is not caught: the module ends in that exception, after the change-set
    was handed over. *)
Theorem other_fault_escapes (srv : vCenter) (fuel : nat) (args : Args)
    (params : Params) (vm : VirtualMachine) (self' : self_t) (name : string) :
  module_params args = Some params ->
  get_vm srv params = Some vm ->
  reconcile params vm init = Return self' ->
  change_detected self' = true ->
  ReconfigVM_Task srv vm (configspec self') = OtherFault name ->
  main srv fuel args = (traceback (Fault name), [configspec self']).
Proof.
  intros Hargs Hvm Hrec Hcd Hsrv.
  unfold main. rewrite Hargs, Hvm. unfold apply_floppy_op. rewrite Hrec.
  unfold send. by rewrite Hcd, Hsrv.
Qed.

Lemma other_fault_escapes_witness :
  let srv := {| get_vm := fun _ => Some vm_bare;
                ReconfigVM_Task := fun _ _ => OtherFault "vim.fault.InvalidPowerState" |} in
  main srv 0 args_none =
    (traceback (Fault "vim.fault.InvalidPowerState"),
     [configspec (after (configure_floppy present_none (Some vm_bare) init))]).
Proof.
  apply (other_fault_escapes
           {| get_vm := fun _ => Some vm_bare;
              ReconfigVM_Task := fun _ _ => OtherFault "vim.fault.InvalidPowerState" |}
           0 args_none present_none vm_bare
           (after (configure_floppy present_none (Some vm_bare) init))
           "vim.fault.InvalidPowerState"); reflexivity.
Defined.

(** * The inventory cache *)

Section Cache.

Import PyVmomiCache.

Lemma climb_nearest obj : climb obj = List.find is_Datacenter (ancestors obj).
Proof.
  induction obj as [c i n | p IH c i n]; simpl; [done |].
  by destruct (is_Datacenter p).
Qed.

Lemma same_tables_refl self : same_tables self self.
Proof. by repeat split. Qed.

Lemma same_tables_trans self1 self2 self3 :
  same_tables self1 self2 -> same_tables self2 self3 -> same_tables self1 self3.
Proof.
  intros (H1 & H2 & H3 & H4) (G1 & G2 & G3 & G4).
  repeat split; congruence.
Qed.

(** One call of [get_parent_datacenter], on a table whose keys are
    datacenters or [None]. *)
Lemma get_parent_datacenter_spec obj self :
  datacenter_keys self ->
  exists self',
    get_parent_datacenter obj self = (enclosing obj, self') /\
    datacenter_keys self' /\
    same_tables self self'.
Proof.
  intros Hkeys. unfold get_parent_datacenter, enclosing.
  destruct (is_Datacenter obj) eqn:Hdc.
  { exists self. split; [done |]. split; [done | apply same_tables_refl]. }
  destruct (parent_datacenters self !! Some (mo_key obj)) as [cached |] eqn:Hlook.
  { exfalso. apply bool_decide_eq_false in Hdc. apply Hdc.
    apply (Hkeys (mo_class obj) (mo_id obj)). by exists cached. }
  eexists. split; [by rewrite climb_nearest |]. split; [| by repeat split].
  intros cls id. simpl. rewrite ?climb_nearest.
  destruct (List.find is_Datacenter (ancestors obj)) as [dc |] eqn:Hfind; simpl.
  - destruct (decide (mo_key dc = (cls, id))) as [Heq | Hne].
    + intros _. apply find_some in Hfind. destruct Hfind as [_ Hdc'].
      apply bool_decide_eq_true in Hdc'. unfold mo_key in Heq. congruence.
    + rewrite lookup_insert_ne by congruence. apply Hkeys.
  - rewrite lookup_insert_ne by discriminate. apply Hkeys.
Qed.

(** X22. On a table as [__init__] and the methods of the class leave it
    (every key a datacenter or [None]), [get_parent_datacenter] answers with
    the datacenter the object belongs to: the object itself when it is one,
    the nearest datacenter among its parents otherwise, [None] when there is
    none; and it leaves the table in that shape, the other tables alone. *)
Theorem get_parent_datacenter_enclosing (obj : ManagedObject) (self : self_t) :
  datacenter_keys self ->
  fst (get_parent_datacenter obj self) = enclosing obj /\
  datacenter_keys (snd (get_parent_datacenter obj self)) /\
  same_tables self (snd (get_parent_datacenter obj self)).
Proof.
  intros Hkeys.
  destruct (get_parent_datacenter_spec obj self Hkeys) as (self' & -> & Hk & Hs).
  simpl. split; [reflexivity |]. split; assumption.
Qed.

Lemma datacenter_keys_init dcn : datacenter_keys (init dcn).
Proof. intros cls id [x Hx]. simpl in Hx. by rewrite lookup_empty in Hx. Qed.

Lemma get_parent_datacenter_enclosing_witness :
  fst (get_parent_datacenter net1 (init (Some "ha-datacenter"))) = enclosing net1 /\
  datacenter_keys (snd (get_parent_datacenter net1 (init (Some "ha-datacenter")))) /\
  same_tables (init (Some "ha-datacenter"))
    (snd (get_parent_datacenter net1 (init (Some "ha-datacenter")))).
Proof.
  apply (get_parent_datacenter_enclosing net1 (init (Some "ha-datacenter"))).
  intros cls id [x Hx]. simpl in Hx. rewrite lookup_empty in Hx. discriminate Hx.
Defined.

(** X23. The table of [get_parent_datacenter] is keyed by the object the walk
    stopped on, not by the object asked about: after a call for an object
    that is not a datacenter, that object is still not in the table, so the
    next call for it walks again. *)
Theorem get_parent_datacenter_forgets (obj : ManagedObject) (self : self_t) :
  datacenter_keys self ->
  is_Datacenter obj = false ->
  parent_datacenters (snd (get_parent_datacenter obj self)) !! Some (mo_key obj) = None.
Proof.
  intros Hkeys Hdc.
  destruct (get_parent_datacenter_spec obj self Hkeys) as (self' & -> & Hk & _).
  simpl. destruct (parent_datacenters self' !! Some (mo_key obj)) as [x |] eqn:Hlook;
    [| done].
  exfalso. apply bool_decide_eq_false in Hdc. apply Hdc.
  apply (Hk (mo_class obj) (mo_id obj)). by exists x.
Qed.

Lemma get_parent_datacenter_forgets_witness :
  parent_datacenters (snd (get_parent_datacenter net1 (init (Some "ha-datacenter"))))
    !! Some (mo_key net1) = None.
Proof.
  apply (get_parent_datacenter_forgets net1 (init (Some "ha-datacenter"))).
  - intros cls id [x Hx]. simpl in Hx. rewrite lookup_empty in Hx. discriminate Hx.
  - reflexivity.
Defined.

(** ** Confinement to the datacenter *)

Lemma confine_list_spec l self :
  datacenter_keys self ->
  exists self',
    confine_list l self =
      (if existsb no_datacenter l then AttributeError
       else Ok (List.filter (inside (dc_name self)) l), self') /\
    datacenter_keys self' /\
    same_tables self self'.
Proof.
  revert self. induction l as [| x l IH]; intros self Hkeys.
  { exists self. split; [done |]. split; [done | apply same_tables_refl]. }
  simpl.
  destruct (get_parent_datacenter_spec x self Hkeys) as (self1 & -> & Hk1 & Hs1).
  unfold no_datacenter at 1, inside at 1.
  destruct (enclosing x) as [dc |] eqn:Hx.
  - destruct (IH self1 Hk1) as (self2 & -> & Hk2 & Hs2).
    exists self2. pose proof Hs1 as (Hdc & _). simpl. rewrite Hdc.
    split; [| split; [done | by eapply same_tables_trans]].
    by destruct (existsb no_datacenter l).
  - exists self1. split; [done | split; assumption].
Qed.

Lemma filter_pop k dcn items tmp :
  List.filter (survives dcn items) (pop k tmp) =
  List.filter (fun kv => negb (bool_decide (mo_key (fst kv) = mo_key k))
                         && survives dcn items kv) tmp.
Proof.
  unfold pop. induction tmp as [| kv tmp IH]; [done |]. simpl.
  destruct (negb (bool_decide (mo_key (fst kv) = mo_key k))); simpl; [| done].
  destruct (survives dcn items kv); by rewrite IH.
Qed.

Lemma filter_survives_nil dcn tmp : List.filter (survives dcn []) tmp = tmp.
Proof.
  induction tmp as [| kv tmp IH]; [done |].
  simpl. change (survives dcn [] kv) with true. by rewrite IH.
Qed.

Lemma confine_dict_spec items tmpobjs self :
  datacenter_keys self ->
  exists self',
    confine_dict items tmpobjs self =
      (if existsb no_datacenter (map fst items) then AttributeError
       else Ok (List.filter (survives (dc_name self) items) tmpobjs), self') /\
    datacenter_keys self' /\
    same_tables self self'.
Proof.
  revert tmpobjs self. induction items as [| [k v] items IH]; intros tmpobjs self Hkeys.
  { exists self. split; [| split; [done | apply same_tables_refl]].
    simpl. by rewrite filter_survives_nil. }
  simpl.
  destruct (get_parent_datacenter_spec k self Hkeys) as (self1 & -> & Hk1 & Hs1).
  unfold no_datacenter at 1.
  destruct (enclosing k) as [dc |] eqn:Hk.
  - destruct (IH (if py_ne (dc_name self1) (mo_name dc) then pop k tmpobjs else tmpobjs)
                self1 Hk1) as (self2 & -> & Hk2 & Hs2).
    exists self2. pose proof Hs1 as (Hdc & _). rewrite Hdc.
    split; [| split; [done | by eapply same_tables_trans]].
    simpl. destruct (existsb no_datacenter (map fst items)); [done |].
    f_equal. f_equal.
    assert (Hin : inside (dc_name self) k = py_eq (dc_name self) (mo_name dc)).
    { unfold inside. by rewrite Hk. }
    unfold py_ne. destruct (py_eq (dc_name self) (mo_name dc)) eqn:Heq; simpl.
    + apply filter_ext. intros kv. unfold survives. simpl. by rewrite Hin.
    + rewrite filter_pop. apply filter_ext. intros kv. unfold survives. simpl.
      rewrite Hin. simpl. by rewrite negb_orb.
  - exists self1. split; [done | split; assumption].
Qed.

(** X24. Confined to the datacenter, [get_all_objs] on a list keeps, in
    their order, exactly the objects that belong to the datacenter named
    [dc_name]; it dies of [AttributeError] exactly when some object of the
    list has no datacenter above it. *)
Theorem get_all_objs_list_is_confined (ext : module_utils) (types : list MoClass)
    (l : list ManagedObject) (self : self_t) :
  datacenter_keys self ->
  ext_get_all_objs ext types = ObjList l ->
  fst (get_all_objs ext types true self) =
    (if existsb no_datacenter l then AttributeError
     else Ok (ObjList (List.filter (inside (dc_name self)) l))) /\
  datacenter_keys (snd (get_all_objs ext types true self)).
Proof.
  intros Hkeys Hext. unfold get_all_objs. rewrite Hext.
  destruct (confine_list_spec l self Hkeys) as (self' & -> & Hk & _).
  simpl. split; [| done]. by destruct (existsb no_datacenter l).
Qed.

Lemma get_all_objs_list_is_confined_witness :
  fst (get_all_objs inventory [Network] true (init (Some "ha-datacenter"))) =
    (if existsb no_datacenter [net2; net1] then AttributeError
     else Ok (ObjList (List.filter (inside (dc_name (init (Some "ha-datacenter"))))
                         [net2; net1]))) /\
  datacenter_keys (snd (get_all_objs inventory [Network] true
                          (init (Some "ha-datacenter")))).
Proof.
  apply (get_all_objs_list_is_confined inventory [Network] [net2; net1]
           (init (Some "ha-datacenter"))).
  - intros cls id [x Hx]. simpl in Hx. rewrite lookup_empty in Hx. discriminate Hx.
  - reflexivity.
Defined.

Lemma survives_own dcn items kv :
  NoDup (map (fun it => mo_key (fst it)) items) ->
  In kv items ->
  survives dcn items kv = inside dcn (fst kv).
Proof.
  intros Hnodup Hin. unfold survives.
  destruct (inside dcn (fst kv)) eqn:Hkv.
  - apply negb_true_iff. apply not_true_is_false. intros Hex.
    apply existsb_exists in Hex. destruct Hex as (it & Hit & Hb).
    apply andb_true_iff in Hb. destruct Hb as [Hout Hkey].
    apply bool_decide_eq_true in Hkey.
    assert (it = kv) as ->; [| by rewrite Hkv in Hout].
    clear Hout Hkv. induction items as [| a items IH]; [destruct Hin |].
    simpl in Hnodup. apply NoDup_cons in Hnodup. destruct Hnodup as [Hfresh Hnodup].
    destruct Hit as [-> | Hit], Hin as [-> | Hin]; [done | | | by apply IH].
    + exfalso. apply Hfresh. rewrite <- Hkey.
      apply list_elem_of_In. by apply (in_map (fun it => mo_key (fst it))).
    + exfalso. apply Hfresh. rewrite Hkey.
      apply list_elem_of_In. by apply (in_map (fun it => mo_key (fst it))).
  - apply negb_false_iff. apply existsb_exists. exists kv. split; [done |].
    rewrite Hkv. simpl. by apply bool_decide_eq_true.
Qed.

(** X25. Confined to the datacenter, [get_all_objs] on a dictionary (whose
    keys are distinct objects) returns the entries, in their order, whose
    object belongs to the datacenter named [dc_name]; it dies of
    [AttributeError] exactly when some key has no datacenter above it. *)
Theorem get_all_objs_dict_is_confined (ext : module_utils) (types : list MoClass)
    (items : list (ManagedObject * string)) (self : self_t) :
  datacenter_keys self ->
  ext_get_all_objs ext types = ObjDict items ->
  NoDup (map (fun it => mo_key (fst it)) items) ->
  fst (get_all_objs ext types true self) =
    (if existsb no_datacenter (map fst items) then AttributeError
     else Ok (ObjDict (List.filter (fun kv => inside (dc_name self) (fst kv)) items))) /\
  datacenter_keys (snd (get_all_objs ext types true self)).
Proof.
  intros Hkeys Hext Hnodup. unfold get_all_objs. rewrite Hext.
  destruct (confine_dict_spec items items self Hkeys) as (self' & -> & Hk & _).
  simpl. split; [| done].
  destruct (existsb no_datacenter (map fst items)); [done |].
  f_equal. f_equal. apply filter_ext_in. intros kv Hin. by apply survives_own.
Qed.

Lemma get_all_objs_dict_is_confined_witness :
  let items := [(net2, "VM Network"); (net1, "VM Network")] in
  fst (get_all_objs inventory_dict [Network] true (init (Some "ha-datacenter"))) =
    (if existsb no_datacenter (map fst items) then AttributeError
     else Ok (ObjDict (List.filter
                         (fun kv => inside (dc_name (init (Some "ha-datacenter"))) (fst kv))
                         items))) /\
  datacenter_keys (snd (get_all_objs inventory_dict [Network] true
                          (init (Some "ha-datacenter")))).
Proof.
  apply (get_all_objs_dict_is_confined inventory_dict [Network]
           [(net2, "VM Network"); (net1, "VM Network")] (init (Some "ha-datacenter"))).
  - intros cls id [x Hx]. simpl in Hx. rewrite lookup_empty in Hx. discriminate Hx.
  - reflexivity.
  - simpl. apply NoDup_cons. split.
    + intros Hin. apply list_elem_of_In in Hin. destruct Hin as [H | []].
      discriminate H.
    + apply NoDup_cons. split; [| apply NoDup_nil; exact I].
      intros Hin. apply list_elem_of_In in Hin. destruct Hin.
Defined.

Lemma survives_inside dcn items kv :
  In kv items -> survives dcn items kv = true -> inside dcn (fst kv) = true.
Proof.
  intros Hin Hs. unfold survives in Hs. apply negb_true_iff in Hs.
  destruct (inside dcn (fst kv)) eqn:Hkv; [done |].
  exfalso. apply not_true_iff_false in Hs. apply Hs.
  apply existsb_exists. exists kv. split; [done |].
  rewrite Hkv. simpl. by apply bool_decide_eq_true.
Qed.

(** Whatever [get_all_objs] returns when confined came from the wrapped
    function and lies inside the datacenter. *)
Lemma get_all_objs_confined_members ext types self objects self' :
  datacenter_keys self ->
  get_all_objs ext types true self = (Ok objects, self') ->
  (forall o, In o (iterate objects) ->
             inside (dc_name self) o = true /\
             In o (iterate (ext_get_all_objs ext types))) /\
  datacenter_keys self' /\
  same_tables self self'.
Proof.
  intros Hkeys. unfold get_all_objs.
  destruct (ext_get_all_objs ext types) as [items | l].
  - destruct (confine_dict_spec items items self Hkeys) as (self2 & -> & Hk & Hs).
    destruct (existsb no_datacenter (map fst items)); [discriminate |].
    intros [= <- <-]. split; [| by split].
    intros o Hin. simpl in Hin. apply in_map_iff in Hin.
    destruct Hin as (kv & <- & Hkv). apply filter_In in Hkv. destruct Hkv as [Hkv Hsurv].
    split; [by apply (survives_inside _ items) |].
    simpl. by apply in_map.
  - destruct (confine_list_spec l self Hkeys) as (self2 & -> & Hk & Hs).
    destruct (existsb no_datacenter l); [discriminate |].
    intros [= <- <-]. split; [| by split].
    intros o Hin. simpl in Hin. apply filter_In in Hin. by destruct Hin.
Qed.

(** X26. Confined to the datacenter, [find_obj] never hands out an object
    of another datacenter: an object it returns belongs to the datacenter
    named [dc_name], and it is either the one the wrapped [find_obj] found
    or an object of the wrapped [get_all_objs] that goes by the name asked
    for. *)
Theorem find_obj_confined_is_inside (ext : module_utils) (types : list MoClass)
    (name : option string) (self : self_t) (o : ManagedObject) :
  datacenter_keys self ->
  fst (find_obj ext types name true self) = Ok (Some o) ->
  inside (dc_name self) o = true /\
  (ext_find_obj ext types name = Some o \/
   name_fits name o = true /\ In o (iterate (ext_get_all_objs ext types))).
Proof.
  intros Hkeys. unfold find_obj.
  destruct (ext_find_obj ext types name) as [result |]; [| discriminate].
  destruct (get_parent_datacenter_spec result self Hkeys) as (self1 & -> & Hk1 & Hs1).
  pose proof Hs1 as (Hdc & _).
  destruct (enclosing result) as [dc |] eqn:Hres; [| discriminate].
  rewrite Hdc. unfold py_ne.
  destruct (py_eq (dc_name self) (mo_name dc)) eqn:Heq; cbn [negb].
  - intros [= <-]. split; [| by left]. unfold inside. by rewrite Hres.
  - destruct (get_all_objs ext types true self1) as [[objects |] self2] eqn:Hall;
      [| discriminate].
    cbn [fst]. intros [= Hfind]. apply find_some in Hfind. destruct Hfind as [Hin Hfits].
    destruct (get_all_objs_confined_members _ _ _ _ _ Hk1 Hall) as (Hmem & _ & _).
    destruct (Hmem o Hin) as [Hinside Hext]. rewrite Hdc in Hinside.
    split; [done |]. right. by split.
Qed.

Lemma find_obj_confined_is_inside_witness :
  inside (dc_name (init (Some "ha-datacenter"))) net1 = true /\
  (ext_find_obj inventory [Network] (Some "VM Network") = Some net1 \/
   name_fits (Some "VM Network") net1 = true /\
   In net1 (iterate (ext_get_all_objs inventory [Network]))).
Proof.
  apply (find_obj_confined_is_inside inventory [Network] (Some "VM Network")
           (init (Some "ha-datacenter")) net1).
  - intros cls id [x Hx]. simpl in Hx. rewrite lookup_empty in Hx. discriminate Hx.
  - reflexivity.
Defined.

(** ** The memoising getters *)

(** X27. [get_network] asks the server once per name: after a call that
    returned, the same name is answered from the table with the same result
    and the cache unchanged, whatever the inventory has become; a name that
    was not found is remembered as not found. *)
Theorem get_network_is_memoised (ext : module_utils) (network : option string)
    (self self' : self_t) (found : option ManagedObject) :
  get_network ext network self = (Ok found, self') ->
  networks self' !! network = Some found /\
  forall ext', get_network ext' network self' = (Ok found, self').
Proof.
  unfold get_network.
  destruct (networks self !! network) as [cached |] eqn:Hlook.
  - intros [= <- <-]. split; [done |]. intros ext'. by rewrite Hlook.
  - destruct (find_obj ext [Network] network true self) as [[r |] self1];
      [| discriminate].
    intros [= <- <-]. cbn [networks set_networks]. rewrite lookup_insert_eq.
    split; [done |].
    intros ext'. unfold get_network. cbn [networks set_networks].
    by rewrite ?lookup_insert_eq.
Qed.

Lemma get_network_is_memoised_witness :
  let self' := snd (get_network inventory (Some "no such network")
                      (init (Some "ha-datacenter"))) in
  networks self' !! Some "no such network" = Some None /\
  forall ext', get_network ext' (Some "no such network") self' = (Ok None, self').
Proof.
  apply (get_network_is_memoised inventory (Some "no such network")
           (init (Some "ha-datacenter"))).
  reflexivity.
Defined.

(** X28. [get_cluster] and [get_esx_host] memoise in the same way, each in
    its own table: a name answered once is answered again from the table,
    with the cache unchanged, whatever the inventory has become. *)
Theorem get_cluster_and_host_are_memoised (ext : module_utils)
    (cluster host : option string) (self self1 self2 : self_t)
    (found1 found2 : option ManagedObject) :
  get_cluster ext cluster self = (Ok found1, self1) ->
  get_esx_host ext host self = (Ok found2, self2) ->
  (forall ext', get_cluster ext' cluster self1 = (Ok found1, self1)) /\
  (forall ext', get_esx_host ext' host self2 = (Ok found2, self2)).
Proof.
  unfold get_cluster at 1, get_esx_host at 1. intros Hc Hh. split.
  - destruct (clusters self !! cluster) as [cached |] eqn:Hlook.
    + injection Hc as <- <-. intros ext'. unfold get_cluster. by rewrite Hlook.
    + destruct (find_obj ext [ClusterComputeResource] cluster true self)
        as [[r |] self'] ; [| discriminate].
      injection Hc as <- <-. intros ext'. unfold get_cluster.
      cbn [clusters set_clusters]. by rewrite ?lookup_insert_eq.
  - destruct (esx_hosts self !! host) as [cached |] eqn:Hlook.
    + injection Hh as <- <-. intros ext'. unfold get_esx_host. by rewrite Hlook.
    + destruct (find_obj ext [HostSystem] host true self) as [[r |] self'];
        [| discriminate].
      injection Hh as <- <-. intros ext'. unfold get_esx_host.
      cbn [esx_hosts set_esx_hosts]. by rewrite ?lookup_insert_eq.
Qed.

Lemma get_cluster_and_host_are_memoised_witness :
  let self1 := snd (get_cluster inventory (Some "cluster01") (init (Some "ha-datacenter"))) in
  let self2 := snd (get_esx_host inventory (Some "VM Network")
                      (init (Some "ha-datacenter"))) in
  (forall ext', get_cluster ext' (Some "cluster01") self1 = (Ok None, self1)) /\
  (forall ext', get_esx_host ext' (Some "VM Network") self2 = (Ok (Some net1), self2)).
Proof.
  apply (get_cluster_and_host_are_memoised inventory (Some "cluster01")
           (Some "VM Network") (init (Some "ha-datacenter"))); reflexivity.
Defined.

End Cache.
